(** * snakeplane: helper_classes.py

    A shallow embedding of the plugin data plane of snakeplane
    ([AyxPlugin], [AyxPluginInterface], [OutputAnchor], [AnchorMetadata])
    and the properties of its anchor/record lifecycle.

    Python objects are records; a method that mutates [self] is a function
    from the object to an outcome (normal return or raised exception)
    paired with the object after the call, so that the state left behind
    by a call that raises is part of the model. *)

From Stdlib Require Import ZArith List String.
From stdpp Require Import base option list strings gmap.

Local Open Scope Z_scope.

(** ** Python values, exceptions and the method monad *)

(** The values that travel in rows.  The code only ever asks of a value
    whether its type is [list], so floats are carried as their binary64 bit
    pattern and never computed with. *)
#[warnings="-register-all"]
Inductive value : Type :=
| VNone
| VBool (b : bool)
| VInt (n : Z)
| VFloat (bits : Z)
| VStr (s : string)
| VBytes (bs : list Byte.byte)
| VTuple (vs : list value)
| VList (vs : list value).

(** [type(v) == list] *)
Definition is_list (v : value) : bool :=
  match v with
  | VList _ => true
  | _ => false
  end.

(** Built-in exceptions the modelled code can raise by itself, and
    [Raised], an exception class of a collaborator, by name. *)
Inductive exn : Type :=
| IndexError
| KeyError
| AttributeError
| TypeError
| ImportError
| Raised (name : string).

Inductive res (A : Type) : Type :=
| Ok (a : A)
| Err (e : exn).
Arguments Ok {A} a.
Arguments Err {A} e.

(** A method on an object of type [S] returning an [A]. *)
Definition method (S A : Type) : Type := S -> res A * S.

Definition ret {S A} (a : A) : method S A := fun s => (Ok a, s).
Definition raise {S A} (e : exn) : method S A := fun s => (Err e, s).
Definition bind {S A B} (m : method S A) (k : A -> method S B) : method S B :=
  fun s =>
    match m s with
    | (Ok a, s') => k a s'
    | (Err e, s') => (Err e, s')
    end.
Definition gets {S A} (f : S -> A) : method S A := fun s => (Ok (f s), s).
Definition modify {S} (f : S -> S) : method S unit := fun s => (Ok tt, f s).

Declare Scope method_scope.
Delimit Scope method_scope with method.
Notation "x <- c1 ;; c2" := (bind c1 (fun x => c2))
  (at level 100, c1 at next level, right associativity) : method_scope.
Notation "c1 ;; c2" := (bind c1 (fun _ => c2))
  (at level 100, right associativity) : method_scope.
Local Open Scope method_scope.

(** A list comprehension whose element expression can raise: the first
    exception ends the comprehension. *)
Fixpoint comprehension {A B} (f : A -> res B) (l : list A) : res (list B) :=
  match l with
  | [] => Ok []
  | x :: l' =>
      match f x with
      | Err e => Err e
      | Ok y =>
          match comprehension f l' with
          | Err e => Err e
          | Ok ys => Ok (y :: ys)
          end
      end
  end.

(** ** The engine SDK and pandas, as the module sees them *)

(** [AlteryxPythonSDK]: the engine's types are opaque.  [sdk_RecordInfo]
    is the constructor [sdk.RecordInfo(engine)], [record_info_bool] the
    truth value Python gives a record info in [if not ...], and
    [record_info_iter] the fields that [for field in record_info] yields. *)
Class AlteryxPythonSDK : Type := {
  FieldType : Type;
  AlteryxEngine : Type;
  RecordInfo : Type;
  Field : Type;
  RecordRef : Type;
  RecordCreator : Type;
  sdk_RecordInfo : AlteryxEngine -> RecordInfo;
  record_info_bool : RecordInfo -> bool;
  record_info_iter : RecordInfo -> list Field
}.

(** ** AnchorMetadata *)

Section Metadata.
Context {sdk : AlteryxPythonSDK}.

Record Column_Metadata : Type := mkColumn_Metadata {
  name : string;
  type : FieldType;
  size : Z;
  scale : Z;
  source : string;
  description : string
}.

Record AnchorMetadata : Type := mkAnchorMetadata {
  columns : list Column_Metadata
}.

(** [AnchorMetadata()] *)
Definition AnchorMetadata_init : AnchorMetadata :=
  {| columns := [] |}.

(** [add_column(self, name, col_type, size=256, scale=0, source="",
    description="")]; an omitted keyword argument is [None] here. *)
Definition add_column (name : string) (col_type : FieldType)
    (size scale : option Z) (source description : option string)
  : method AnchorMetadata unit :=
  modify (fun self =>
    {| columns := columns self ++
         [mkColumn_Metadata name col_type (default 256 size)
            (default 0 scale) (default EmptyString source)
            (default EmptyString description)] |}).

(** [index_of]: the first position holding the name, [-1] when absent. *)
Fixpoint index_of_from (i : Z) (cs : list Column_Metadata) (n : string) : Z :=
  match cs with
  | [] => -1
  | c :: cs' => if String.eqb (name c) n then i else index_of_from (i + 1) cs' n
  end.

Definition index_of (self : AnchorMetadata) (n : string) : Z :=
  index_of_from 0 (columns self) n.

Definition get_column_by_name (self : AnchorMetadata) (n : string)
  : option Column_Metadata :=
  let index := index_of self n in
  if Z.eqb index (-1) then None else columns self !! Z.to_nat index.

Definition get_column_names (self : AnchorMetadata) : list string :=
  map name (columns self).

End Metadata.

(** [pandas]: [pd] is [None] when the import failed, else the module, of
    which only the constructor [pd.DataFrame(rows, columns=names)] is used. *)
Class Pandas : Type := {
  DataFrame : Type;
  pd : option (list (list value) -> list string -> res DataFrame)
}.

(** [snakeplane.interface_utilities]: the record codec.  Each function is
    taken as the module sees it: arguments in, a result or an exception
    out.  [build_ayx_record_info] fills the record info it is handed in
    place, hence a method on it. *)
Class interface_utils {sdk : AlteryxPythonSDK} {pandas : Pandas} : Type := {
  get_column_metadata : option RecordInfo -> res AnchorMetadata;
  get_dynamic_type_value : Field -> RecordRef -> res value;
  dataframe_to_list : DataFrame -> list value;
  build_ayx_record_info : option AnchorMetadata -> method RecordInfo unit;
  build_ayx_record_from_list :
    value -> option AnchorMetadata -> option RecordInfo ->
    option RecordCreator -> res (RecordRef * RecordCreator)
}.

Section Classes.
Context {sdk : AlteryxPythonSDK} {pandas : Pandas}.

(** ** Object state *)

(** What an output anchor's [data] holds: nothing, a dataframe, or a list
    (of rows, or the values of one row).  [interface_utils.is_dataframe]
    is the test for [PFrame]. *)
Inductive payload : Type :=
| PNone
| PFrame (df : DataFrame)
| PList (l : list value).

(** The engine's output anchor behind [_handler], seen through the calls
    it has received, oldest first. *)
Record OutputHandler : Type := mkOutputHandler {
  init_calls : list RecordInfo;
  push_record_calls : list (RecordRef * bool)
}.

Record OutputAnchor : Type := mkOutputAnchor {
  _data : payload;
  _metadata : option AnchorMetadata;
  _record_info_out : option RecordInfo;
  _record_creator : option RecordCreator;
  _handler : option OutputHandler
}.

Record interface_record_vars : Type := mkInterfaceRecordVars {
  record_info_in : option RecordInfo;
  record_list_in : list (list value);
  column_metadata : option AnchorMetadata
}.

Record interface_state : Type := mkInterfaceState {
  input_complete : bool;
  d_progress_percentage : value;
  data_processing_mode : string
}.

(** [AyxPluginInterface] without its [parent] back reference: the methods
    that read the parent take it as an argument. *)
Record AyxPluginInterface : Type := mkAyxPluginInterface {
  self_name : string;
  self_initialized : bool;
  _interface_record_vars : interface_record_vars;
  _interface_state : interface_state
}.

Record engine_vars : Type := mkEngineVars {
  n_tool_id : Z;
  alteryx_engine : AlteryxEngine
}.

Record state_vars : Type := mkStateVars {
  initialized : bool;
  input_anchors : gmap string (list AyxPluginInterface);
  output_anchors : gmap string OutputAnchor;
  required_input_names : list string
}.

(** [AyxPlugin], with the two attributes the plugin factory sets on it
    and [AyxPluginInterface.data] reads.  The attributes that none of the
    methods below reads or writes ([config_data], [output_anchor_mgr],
    [logging], [user_data]) are left out; [input_manager] and
    [output_manager] are views on the two anchor dictionaries. *)
Record AyxPlugin : Type := mkAyxPlugin {
  _engine_vars : engine_vars;
  _state_vars : state_vars;
  process_data_mode : string;
  process_data_input_type : string
}.

End Classes.

Section Methods.
Context {sdk : AlteryxPythonSDK} {pandas : Pandas} {utils : interface_utils}.

(** ** AyxPluginInterface *)

(** [AyxPluginInterface(parent, name)] *)
Definition AyxPluginInterface_init (name : string) : AyxPluginInterface :=
  {| self_name := name;
     self_initialized := false;
     _interface_record_vars :=
       {| record_info_in := None; record_list_in := []; column_metadata := None |};
     _interface_state :=
       {| input_complete := false;
          d_progress_percentage := VInt 0;
          data_processing_mode := "batch" |} |}.

(** Assignment to one attribute of [_interface_record_vars] or of
    [_interface_state]. *)
Definition set_record_list_in (l : list (list value)) (self : AyxPluginInterface)
  : AyxPluginInterface :=
  {| self_name := self_name self;
     self_initialized := self_initialized self;
     _interface_record_vars :=
       {| record_info_in := record_info_in (_interface_record_vars self);
          record_list_in := l;
          column_metadata := column_metadata (_interface_record_vars self) |};
     _interface_state := _interface_state self |}.

Definition set_column_metadata (val : option AnchorMetadata)
    (self : AyxPluginInterface) : AyxPluginInterface :=
  {| self_name := self_name self;
     self_initialized := self_initialized self;
     _interface_record_vars :=
       {| record_info_in := record_info_in (_interface_record_vars self);
          record_list_in := record_list_in (_interface_record_vars self);
          column_metadata := val |};
     _interface_state := _interface_state self |}.

Definition set_input_complete (b : bool) (self : AyxPluginInterface)
  : AyxPluginInterface :=
  {| self_name := self_name self;
     self_initialized := self_initialized self;
     _interface_record_vars := _interface_record_vars self;
     _interface_state :=
       {| input_complete := b;
          d_progress_percentage := d_progress_percentage (_interface_state self);
          data_processing_mode := data_processing_mode (_interface_state self) |} |}.

(** The [metadata] property; the deep copy of a value is the value. *)
Definition AyxPluginInterface_metadata (self : AyxPluginInterface)
  : option AnchorMetadata :=
  column_metadata (_interface_record_vars self).

(** What the [data] property can hand out: one row, the buffer, or a
    dataframe. *)
Inductive data_view : Type :=
| DataRow (row : list value)
| DataList (rows : list (list value))
| DataDataFrame (df : DataFrame).

(** The [data] property. *)
Definition AyxPluginInterface_data (parent : AyxPlugin) (self : AyxPluginInterface)
  : res data_view :=
  let buffer := record_list_in (_interface_record_vars self) in
  if String.eqb (process_data_mode parent) "stream"
     && String.eqb (process_data_input_type parent) "list"
  then
    match buffer !! 0%nat with
    | Some row => Ok (DataRow row)
    | None => Err IndexError
    end
  else if String.eqb (process_data_input_type parent) "list"
  then Ok (DataList buffer)
  else
    match pd with
    | None => Err ImportError
    | Some pd_DataFrame =>
        match column_metadata (_interface_record_vars self) with
        | None => Err AttributeError
        | Some md =>
            match pd_DataFrame buffer (get_column_names md) with
            | Ok df => Ok (DataDataFrame df)
            | Err e => Err e
            end
        end
    end.

Definition create_record_for_input_records_list (self : AyxPluginInterface)
    (in_record : RecordRef) : res (list value * AnchorMetadata) :=
  let record_info := record_info_in (_interface_record_vars self) in
  match get_column_metadata record_info with
  | Err e => Err e
  | Ok column_metadata =>
      match record_info with
      | None => Err TypeError
      | Some ri =>
          match comprehension
                  (fun field => get_dynamic_type_value field in_record)
                  (record_info_iter ri) with
          | Err e => Err e
          | Ok record => Ok (record, column_metadata)
          end
      end
  end.

Definition set_col_metadata (val : AnchorMetadata)
  : method AyxPluginInterface unit :=
  modify (set_column_metadata (Some val)).

Definition accumulate_record (record : RecordRef)
  : method AyxPluginInterface unit :=
  rc <- (fun self => (create_record_for_input_records_list self record, self)) ;;
  set_col_metadata (snd rc) ;;
  modify (fun self =>
    set_record_list_in
      (record_list_in (_interface_record_vars self) ++ [fst rc]) self).

Definition set_record_info_in (record_info : option RecordInfo)
  : method AyxPluginInterface unit :=
  modify (fun self =>
    {| self_name := self_name self;
       self_initialized := self_initialized self;
       _interface_record_vars :=
         {| record_info_in := record_info;
            record_list_in := record_list_in (_interface_record_vars self);
            column_metadata := column_metadata (_interface_record_vars self) |};
       _interface_state := _interface_state self |}).

Definition is_complete (self : AyxPluginInterface) : bool :=
  input_complete (_interface_state self).

Definition set_completed : method AyxPluginInterface unit :=
  modify (set_input_complete true).

(** The engine delivering records one after the other; the first call
    that raises ends the delivery. *)
Fixpoint accumulate_records (records : list RecordRef)
  : method AyxPluginInterface unit :=
  match records with
  | [] => ret tt
  | record :: rest => accumulate_record record ;; accumulate_records rest
  end.

(** [n] calls of a method in a row. *)
Fixpoint repeat_call {St} (n : nat) (m : method St unit) : method St unit :=
  match n with
  | O => ret tt
  | S n' => m ;; repeat_call n' m
  end.

(** ** OutputAnchor *)

(** [OutputAnchor()] *)
Definition OutputAnchor_init : OutputAnchor :=
  {| _data := PNone;
     _metadata := None;
     _record_info_out := None;
     _record_creator := None;
     _handler := None |}.

Definition set__data (d : payload) (self : OutputAnchor) : OutputAnchor :=
  {| _data := d;
     _metadata := _metadata self;
     _record_info_out := _record_info_out self;
     _record_creator := _record_creator self;
     _handler := _handler self |}.

Definition set__metadata (m : option AnchorMetadata) (self : OutputAnchor)
  : OutputAnchor :=
  {| _data := _data self;
     _metadata := m;
     _record_info_out := _record_info_out self;
     _record_creator := _record_creator self;
     _handler := _handler self |}.

Definition set__record_info_out (ri : option RecordInfo) (self : OutputAnchor)
  : OutputAnchor :=
  {| _data := _data self;
     _metadata := _metadata self;
     _record_info_out := ri;
     _record_creator := _record_creator self;
     _handler := _handler self |}.

Definition set__record_creator (c : option RecordCreator) (self : OutputAnchor)
  : OutputAnchor :=
  {| _data := _data self;
     _metadata := _metadata self;
     _record_info_out := _record_info_out self;
     _record_creator := c;
     _handler := _handler self |}.

Definition set__handler (h : option OutputHandler) (self : OutputAnchor)
  : OutputAnchor :=
  {| _data := _data self;
     _metadata := _metadata self;
     _record_info_out := _record_info_out self;
     _record_creator := _record_creator self;
     _handler := h |}.

(** The [data] and [metadata] properties: getter, then setter. *)
Definition OutputAnchor_data (self : OutputAnchor) : payload := _data self.

Definition OutputAnchor_data_setter (data : payload)
  : method OutputAnchor unit :=
  modify (set__data data).

Definition OutputAnchor_metadata (self : OutputAnchor)
  : option AnchorMetadata :=
  _metadata self.

Definition OutputAnchor_metadata_setter (metadata : option AnchorMetadata)
  : method OutputAnchor unit :=
  modify (set__metadata metadata).

(** The engine handler's two calls.  [self._handler.f(...)] on a handler
    that was never saved is an attribute access on [None]. *)
Definition handler_init (ri : RecordInfo) (h : OutputHandler) : OutputHandler :=
  {| init_calls := init_calls h ++ [ri];
     push_record_calls := push_record_calls h |}.

Definition handler_push_record (r : RecordRef) (b : bool) (h : OutputHandler)
  : OutputHandler :=
  {| init_calls := init_calls h;
     push_record_calls := push_record_calls h ++ [(r, b)] |}.

Definition on_handler (f : OutputHandler -> OutputHandler)
  : method OutputAnchor unit :=
  fun self =>
    match _handler self with
    | None => (Err AttributeError, self)
    | Some h => (Ok tt, set__handler (Some (f h)) self)
    end.

Definition get_data_list (self : OutputAnchor) : res (option (list value)) :=
  match _data self with
  | PFrame df => Ok (Some (dataframe_to_list df))
  | PList l =>
      match l with
      | [] => Err IndexError
      | first :: _ => if negb (is_list first) then Ok (Some [VList l]) else Ok (Some l)
      end
  | PNone => Ok None
  end.

(** [plugin.create_record_info()] *)
Definition create_record_info (plugin : AyxPlugin) : RecordInfo :=
  sdk_RecordInfo (alteryx_engine (_engine_vars plugin)).

Definition push_metadata (plugin : AyxPlugin) : method OutputAnchor unit :=
  out_col_metadata <- gets OutputAnchor_metadata ;;
  record_info_out <- gets _record_info_out ;;
  match record_info_out with
  | Some _ => ret tt
  | None =>
      modify (set__record_info_out (Some (create_record_info plugin))) ;;
      (fun self =>
         let '(r, ri) :=
           build_ayx_record_info out_col_metadata (create_record_info plugin) in
         (r, set__record_info_out (Some ri) self)) ;;
      record_info_out <- gets _record_info_out ;;
      match record_info_out with
      | Some ri => on_handler (handler_init ri)
      | None => raise AttributeError
      end
  end.

(** The [for value in out_values_list] loop of [push_records]. *)
Fixpoint push_records_loop (out_col_metadata : option AnchorMetadata)
    (out_values_list : list value) : method OutputAnchor unit :=
  match out_values_list with
  | [] => ret tt
  | value :: rest =>
      record_and_creator <-
        (fun self =>
           (build_ayx_record_from_list value out_col_metadata
              (_record_info_out self) (_record_creator self), self)) ;;
      modify (set__record_creator (Some (snd record_and_creator))) ;;
      on_handler (handler_push_record (fst record_and_creator) false) ;;
      push_records_loop out_col_metadata rest
  end.

(** Python's [not self._record_info_out]. *)
Definition not_record_info_out (self : OutputAnchor) : bool :=
  match _record_info_out self with
  | None => true
  | Some ri => negb (record_info_bool ri)
  end.

Definition push_records (plugin : AyxPlugin) : method OutputAnchor unit :=
  out_values_list <- (fun self => (get_data_list self, self)) ;;
  out_col_metadata <- gets OutputAnchor_metadata ;;
  match out_values_list with
  | None => ret tt
  | Some out_values_list =>
      no_record_info <- gets not_record_info_out ;;
      (if no_record_info : bool then push_metadata plugin else ret tt) ;;
      push_records_loop out_col_metadata out_values_list ;;
      OutputAnchor_data_setter PNone
  end.

(** ** AyxPlugin *)

Definition set_input_anchors (m : gmap string (list AyxPluginInterface))
    (self : AyxPlugin) : AyxPlugin :=
  {| _engine_vars := _engine_vars self;
     _state_vars :=
       {| initialized := initialized (_state_vars self);
          input_anchors := m;
          output_anchors := output_anchors (_state_vars self);
          required_input_names := required_input_names (_state_vars self) |};
     process_data_mode := process_data_mode self;
     process_data_input_type := process_data_input_type self |}.

(** [save_interface(name, interface)]: append to the anchor's list; an
    anchor the configuration did not declare is a [KeyError]. *)
Definition save_interface (name : string) (interface : AyxPluginInterface)
  : method AyxPlugin unit :=
  fun self =>
    match input_anchors (_state_vars self) !! name with
    | None => (Err KeyError, self)
    | Some connections =>
        (Ok tt,
         set_input_anchors
           (<[name := connections ++ [interface]]> (input_anchors (_state_vars self)))
           self)
    end.

(** [all_required_inputs_initialized]: leaves at the first anchor that is
    empty or has a connection that is not initialized. *)
Fixpoint all_required_inputs_initialized_loop
    (anchors : gmap string (list AyxPluginInterface)) (names : list string)
  : res bool :=
  match names with
  | [] => Ok true
  | anchor_name :: rest =>
      match anchors !! anchor_name with
      | None => Err KeyError
      | Some input =>
          if match input with [] => true | _ => false end
             || negb (forallb self_initialized input)
          then Ok false
          else all_required_inputs_initialized_loop anchors rest
      end
  end.

Definition all_required_inputs_initialized (self : AyxPlugin) : res bool :=
  all_required_inputs_initialized_loop
    (input_anchors (_state_vars self)) (required_input_names (_state_vars self)).

(** The loop of [all_inputs_completed]: the flag starts [True], every
    required name is looked up, and the loop has no early exit. *)
Fixpoint all_inputs_completed_loop
    (anchors : gmap string (list AyxPluginInterface)) (names : list string)
    (all_inputs_completed : bool) : res bool :=
  match names with
  | [] => Ok all_inputs_completed
  | name :: rest =>
      match anchors !! name with
      | None => Err KeyError
      | Some connections =>
          if Nat.eqb (length connections) 0
             || negb (forallb is_complete connections)
          then all_inputs_completed_loop anchors rest false
          else all_inputs_completed_loop anchors rest all_inputs_completed
      end
  end.

Definition all_inputs_completed (self : AyxPlugin) : res bool :=
  if initialized (_state_vars self)
  then all_inputs_completed_loop
         (input_anchors (_state_vars self))
         (required_input_names (_state_vars self)) true
  else Ok false.

(** [clear_accumulated_records]: every connection of every anchor gets
    a fresh empty [record_list_in]. *)
Definition clear_accumulated_records : method AyxPlugin unit :=
  modify (fun self =>
    set_input_anchors
      (fmap (M := gmap string) (map (set_record_list_in []))
         (input_anchors (_state_vars self)))
      self).

End Methods.

(** ** What a push is expected to encode *)

Section Encoding.
Context {sdk : AlteryxPythonSDK} {pandas : Pandas} {utils : interface_utils}.

(** The rows of a normalized payload encoded one after the other against
    one schema and one record info, each call handed the record creator
    the call before it returned.  The first failure ends the encoding. *)
Fixpoint encode_rows (schema : option AnchorMetadata)
    (record_info : option RecordInfo) (creator : option RecordCreator)
    (rows : list value) : res (list RecordRef * option RecordCreator) :=
  match rows with
  | [] => Ok ([], creator)
  | row :: rest =>
      match build_ayx_record_from_list row schema record_info creator with
      | Err e => Err e
      | Ok (record, creator') =>
          match encode_rows schema record_info (Some creator') rest with
          | Err e => Err e
          | Ok (records, last) => Ok (record :: records, last)
          end
      end
  end.

(** The handler after the records were pushed to it in order. *)
Definition pushed (records : list RecordRef) (h : OutputHandler) : OutputHandler :=
  {| init_calls := init_calls h;
     push_record_calls :=
       push_record_calls h ++ map (fun r => (r, false)) records |}.

(** The normalized payload, in the specification's words: a dataframe
    gives its rows, a list of lists is the rows themselves, and any other
    non-empty list is a single row, wrapped as a singleton sequence. *)
Definition normalized_payload (d : payload) : list value :=
  match d with
  | PFrame df => dataframe_to_list df
  | PList (first :: rest) =>
      if is_list first then first :: rest else [VList (first :: rest)]
  | _ => []
  end.

(** The negotiation step of [push_records], on its own. *)
Definition negotiate (plugin : AyxPlugin) : method OutputAnchor unit :=
  no_record_info <- gets not_record_info_out ;;
  if no_record_info : bool then push_metadata plugin else ret tt.

(** What the transform and the coordinator do to an output anchor during
    a run: assign [data], assign [metadata], or call [push_records]. *)
Inductive call : Type :=
| SetData (data : payload)
| SetMetadata (metadata : option AnchorMetadata)
| PushRecords.

Definition run_call (plugin : AyxPlugin) (c : call) : method OutputAnchor unit :=
  match c with
  | SetData data => OutputAnchor_data_setter data
  | SetMetadata metadata => OutputAnchor_metadata_setter metadata
  | PushRecords => push_records plugin
  end.

(** The anchor after a sequence of calls, whatever each call's outcome. *)
Fixpoint session (plugin : AyxPlugin) (calls : list call) (self : OutputAnchor)
  : OutputAnchor :=
  match calls with
  | [] => self
  | c :: rest => session plugin rest (snd (run_call plugin c self))
  end.

(** The record infos the anchor's handler was initialised with so far. *)
Definition bound (self : OutputAnchor) : option (list RecordInfo) :=
  init_calls <$> _handler self.

(** A connection after its buffer was cleared, and nothing else. *)
Definition cleared (c c' : AyxPluginInterface) : Prop :=
  record_list_in (_interface_record_vars c') = []
  /\ column_metadata (_interface_record_vars c')
     = column_metadata (_interface_record_vars c)
  /\ record_info_in (_interface_record_vars c')
     = record_info_in (_interface_record_vars c)
  /\ _interface_state c' = _interface_state c
  /\ self_initialized c' = self_initialized c
  /\ self_name c' = self_name c.

End Encoding.

(** ** Construction, indexing and call sequences *)

Section Construction.
Context {sdk : AlteryxPythonSDK} {pandas : Pandas} {utils : interface_utils}.

(** One [<Connection>] of the tool's configuration, as the dictionary
    [plugin_utils.get_xml_config_input_connections] (or its output
    counterpart) yields it: only ["@Name"] and ["@Optional"] are read. *)
Record connection : Type := mkConnection {
  at_Name : string;
  at_Optional : string
}.

(** The first loop of [AyxPlugin.__init__]: every input connection gets an
    empty anchor, and the names of those whose ["@Optional"] is the string
    ["False"] are appended to the required names. *)
Fixpoint init_input_anchors (connections : list connection)
    (anchors : gmap string (list AyxPluginInterface)) (required : list string)
  : gmap string (list AyxPluginInterface) * list string :=
  match connections with
  | [] => (anchors, required)
  | c :: rest =>
      init_input_anchors rest
        (<[at_Name c := []]> anchors)
        (if String.eqb (at_Optional c) "False"
         then required ++ [at_Name c]
         else required)
  end.

(** The second loop: every output connection gets a new [OutputAnchor()]. *)
Fixpoint init_output_anchors (connections : list connection)
    (anchors : gmap string OutputAnchor) : gmap string OutputAnchor :=
  match connections with
  | [] => anchors
  | c :: rest =>
      init_output_anchors rest (<[at_Name c := OutputAnchor_init]> anchors)
  end.

(** [AyxPlugin(n_tool_id, alteryx_engine, output_anchor_mgr)], given the
    two connection lists read from the tool's XML file; the two
    [process_data_*] attributes are the ones the factory sets afterwards. *)
Definition AyxPlugin_init (n_tool_id : Z) (alteryx_engine : AlteryxEngine)
    (input_connections output_connections : list connection)
    (mode input_type : string) : AyxPlugin :=
  let inputs := init_input_anchors input_connections ∅ [] in
  {| _engine_vars := {| n_tool_id := n_tool_id; alteryx_engine := alteryx_engine |};
     _state_vars :=
       {| initialized := false;
          input_anchors := fst inputs;
          output_anchors := init_output_anchors output_connections ∅;
          required_input_names := snd inputs |};
     process_data_mode := mode;
     process_data_input_type := input_type |}.

(** [AnchorMetadata.__len__] and [__getitem__] with an integer key:
    Python list indexing, negative keys counting from the end. *)
Definition AnchorMetadata_len (self : AnchorMetadata) : Z :=
  Z.of_nat (length (columns self)).

Definition AnchorMetadata_getitem (self : AnchorMetadata) (key : Z)
  : res Column_Metadata :=
  let n := Z.of_nat (length (columns self)) in
  let i := if Z.ltb key 0 then key + n else key in
  if Z.ltb i 0 || Z.leb n i then Err IndexError
  else
    match columns self !! Z.to_nat i with
    | Some c => Ok c
    | None => Err IndexError
    end.

(** A schema filled by successive [add_column(name, col_type)] calls, the
    keyword arguments left at their defaults. *)
Fixpoint add_columns (specs : list (string * FieldType))
  : method AnchorMetadata unit :=
  match specs with
  | [] => ret tt
  | spec :: rest =>
      add_column (fst spec) (snd spec) None None None None ;; add_columns rest
  end.

(** What reaches an input connection during a run: the engine's calls and
    the coordinator's reset of its buffer. *)
Inductive interface_call : Type :=
| SetRecordInfoIn (record_info : option RecordInfo)
| AccumulateRecord (record : RecordRef)
| SetColMetadata (val : AnchorMetadata)
| SetCompleted
| ClearRecords.

Definition run_interface_call (c : interface_call)
  : method AyxPluginInterface unit :=
  match c with
  | SetRecordInfoIn record_info => set_record_info_in record_info
  | AccumulateRecord record => accumulate_record record
  | SetColMetadata val => set_col_metadata val
  | SetCompleted => set_completed
  | ClearRecords => modify (set_record_list_in [])
  end.

(** The connection after a sequence of calls, whatever each call's outcome. *)
Fixpoint interface_session (calls : list interface_call)
    (self : AyxPluginInterface) : AyxPluginInterface :=
  match calls with
  | [] => self
  | c :: rest => interface_session rest (snd (run_interface_call c self))
  end.

(** The plugin's invariant on its wiring: every required name is a key of
    [input_anchors]. *)
Definition required_declared (self : AyxPlugin) : Prop :=
  Forall (fun n => is_Some (input_anchors (_state_vars self) !! n))
    (required_input_names (_state_vars self)).

End Construction.

(** ** A small engine to run the methods on

    Field types are names, a record info is the list of its fields (name
    and type), an engine record is the list of its values, and the codec
    moves values across unchanged. *)

Definition toy_sdk : AlteryxPythonSDK :=
  {| FieldType := string;
     AlteryxEngine := unit;
     RecordInfo := list (string * string);
     Field := nat;
     RecordRef := list value;
     RecordCreator := unit;
     sdk_RecordInfo := fun _ => [];
     record_info_bool := fun _ => true;
     record_info_iter := fun ri => seq 0 (length ri) |}.

Definition toy_pandas : Pandas :=
  {| DataFrame := list (list value) * list string;
     pd := Some (fun rows names => Ok (rows, names)) |}.

Definition toy_schema (names : list (string * string)) : @AnchorMetadata toy_sdk :=
  @mkAnchorMetadata toy_sdk
    (map (fun f : string * string =>
            @mkColumn_Metadata toy_sdk (fst f) (snd f) 256 0 "" "") names).

Definition toy_get_column_metadata (ri : option (list (string * string)))
  : res (@AnchorMetadata toy_sdk) :=
  match ri with
  | None => Err AttributeError
  | Some fields => Ok (toy_schema fields)
  end.

Definition toy_get_dynamic_type_value (field : nat) (record : list value)
  : res value :=
  match record !! field with
  | Some v => Ok v
  | None => Err (Raised "FieldExtractionError")
  end.

Definition toy_build_ayx_record_info (md : option (@AnchorMetadata toy_sdk))
  : method (list (string * string)) unit :=
  fun ri =>
    match md with
    | None => (Err AttributeError, ri)
    | Some m =>
        (Ok tt,
         ri ++ map (fun c => (@name toy_sdk c, @type toy_sdk c))
                 (@columns toy_sdk m))
    end.

Definition toy_build_ayx_record_from_list (v : value)
    (md : option (@AnchorMetadata toy_sdk))
    (ri : option (list (string * string))) (creator : option unit)
  : res (list value * unit) :=
  match v with
  | VList vs => Ok (vs, tt)
  | _ => Err TypeError
  end.

Definition toy_utils : @interface_utils toy_sdk toy_pandas :=
  @Build_interface_utils toy_sdk toy_pandas
    toy_get_column_metadata
    toy_get_dynamic_type_value
    (fun df : list (list value) * list string => map VList (fst df))
    toy_build_ayx_record_info
    toy_build_ayx_record_from_list.

Definition toy_handler : @OutputHandler toy_sdk :=
  @mkOutputHandler toy_sdk [] [].

Definition toy_anchor (d : @payload toy_pandas)
    (m : option (@AnchorMetadata toy_sdk)) : @OutputAnchor toy_sdk toy_pandas :=
  @mkOutputAnchor toy_sdk toy_pandas d m None None (Some toy_handler).

Definition toy_connection (buffer : list (list value)) (complete : bool)
  : @AyxPluginInterface toy_sdk :=
  @mkAyxPluginInterface toy_sdk "in" true
    (@mkInterfaceRecordVars toy_sdk (Some [("id", "Int"); ("tag", "String")]) buffer None)
    (mkInterfaceState complete (VInt 0) "batch").

Definition toy_plugin (init : bool)
    (inputs : gmap string (list (@AyxPluginInterface toy_sdk)))
    (required : list string) (mode input_type : string)
  : @AyxPlugin toy_sdk toy_pandas :=
  @mkAyxPlugin toy_sdk toy_pandas
    (@mkEngineVars toy_sdk 7 tt)
    (@mkStateVars toy_sdk toy_pandas init inputs ∅ required)
    mode input_type.

(** * Properties *)

(** Running a method to its outcome. *)
Ltac run_method :=
  unfold bind, ret, raise, gets, modify in *; simpl in *.

Section MetadataProperties.
Context {sdk : AlteryxPythonSDK}.

Lemma index_of_from_range (cs : list Column_Metadata) (n : string) (i : Z) :
  0 <= i -> index_of_from i cs n = -1 \/ i <= index_of_from i cs n.
Proof.
  revert i; induction cs as [|c cs IH]; intros i Hi; simpl.
  - now left.
  - destruct (String.eqb (name c) n); [right; lia|].
    destruct (IH (i + 1)) as [Hnone | Hsome]; [lia | now left | right; lia].
Qed.

Lemma index_of_from_app_found (cs l : list Column_Metadata) (n : string) (i : Z) :
  index_of_from i cs n <> -1 ->
  index_of_from i (cs ++ l) n = index_of_from i cs n.
Proof.
  revert i; induction cs as [|c cs IH]; intros i Hfound; simpl in *.
  - congruence.
  - destruct (String.eqb (name c) n); [reflexivity | now apply IH].
Qed.

Lemma index_of_from_app_new (cs : list Column_Metadata) (c : Column_Metadata)
    (i : Z) :
  0 <= i ->
  index_of_from i cs (name c) = -1 ->
  index_of_from i (cs ++ [c]) (name c) = i + Z.of_nat (length cs).
Proof.
  revert i; induction cs as [|c0 cs IH]; intros i Hi Hnone; simpl in *.
  - rewrite String.eqb_refl. lia.
  - destruct (String.eqb (name c0) (name c)); [lia|].
    rewrite IH by (lia || assumption). lia.
Qed.

(** C5 (as the code has it): [add_column] always returns normally and
    appends the descriptor at the end, so the column names grow by the new
    name at the end.  No check on the name is made: when the name is
    already present the schema keeps both columns and [index_of] still
    answers the earlier one, and when it is new [index_of] answers the last
    position. *)
Theorem add_column_appends_without_check :
  forall (self : AnchorMetadata) (n : string) (col_type : FieldType)
         (sz sc : option Z) (src descr : option string),
  exists self',
    add_column n col_type sz sc src descr self = (Ok tt, self')
    /\ columns self' =
         columns self ++
           [mkColumn_Metadata n col_type (default 256 sz) (default 0 sc)
              (default EmptyString src) (default EmptyString descr)]
    /\ get_column_names self' = get_column_names self ++ [n]
    /\ length (columns self') = S (length (columns self))
    /\ index_of self' n =
         (if Z.eqb (index_of self n) (-1)
          then Z.of_nat (length (columns self))
          else index_of self n).
Proof.
  intros self n col_type sz sc src descr.
  eexists; split; [reflexivity|]; simpl.
  repeat split.
  - unfold get_column_names; simpl. now rewrite map_app.
  - rewrite length_app; simpl; lia.
  - unfold index_of; simpl.
    destruct (Z.eqb_spec (index_of_from 0 (columns self) n) (-1)) as [Hnone|Hfound].
    + set (c := mkColumn_Metadata n col_type _ _ _ _).
      change n with (name c) in Hnone |- * at 1.
      rewrite index_of_from_app_new by (lia || assumption). lia.
    + now apply index_of_from_app_found.
Qed.

End MetadataProperties.

(** C5, the claim as written fails: adding a column under a name the schema
    already has raises nothing and leaves two columns of that name. *)
Lemma add_column_duplicate_accepted :
  let m1 := snd (@add_column toy_sdk "id" "Int" None None None None
                   (@AnchorMetadata_init toy_sdk)) in
  @get_column_names toy_sdk m1 = ["id"]
  /\ fst (@add_column toy_sdk "id" "Int" None None None None m1) = Ok tt
  /\ fst (@add_column toy_sdk "id" "Int" None None None None m1)
     <> Err (Raised "DuplicateColumnError")
  /\ @get_column_names toy_sdk
       (snd (@add_column toy_sdk "id" "Int" None None None None m1))
     = ["id"; "id"].
Proof.
  cbv zeta. repeat split; try reflexivity. discriminate.
Qed.

Section InterfaceProperties.
Context {sdk : AlteryxPythonSDK} {pandas : Pandas} {utils : interface_utils}.

(** C6: with list input type and a non-empty buffer, a plugin in stream
    mode is handed the first buffered row only, and a plugin in batch mode
    the whole buffer in order. *)
Theorem data_stream_first_row_batch_whole_buffer :
  forall (stream_parent batch_parent : AyxPlugin) (self : AyxPluginInterface)
         (row : list value) (rest : list (list value)),
    process_data_mode stream_parent = "stream" ->
    process_data_input_type stream_parent = "list" ->
    process_data_mode batch_parent = "batch" ->
    process_data_input_type batch_parent = "list" ->
    record_list_in (_interface_record_vars self) = row :: rest ->
    AyxPluginInterface_data stream_parent self = Ok (DataRow row)
    /\ AyxPluginInterface_data batch_parent self = Ok (DataList (row :: rest)).
Proof.
  intros sp bp self row rest Hsm Hst Hbm Hbt Hbuf.
  unfold AyxPluginInterface_data. rewrite Hsm, Hst, Hbm, Hbt, Hbuf.
  split; reflexivity.
Qed.

(** C10: in stream mode with list input type, reading [data] on an
    empty buffer raises [IndexError]; no empty or null value comes back. *)
Theorem data_stream_empty_buffer_IndexError :
  forall (parent : AyxPlugin) (self : AyxPluginInterface),
    process_data_mode parent = "stream" ->
    process_data_input_type parent = "list" ->
    record_list_in (_interface_record_vars self) = [] ->
    AyxPluginInterface_data parent self = Err IndexError
    /\ (forall v, AyxPluginInterface_data parent self <> Ok v).
Proof.
  intros parent self Hmode Htype Hbuf.
  unfold AyxPluginInterface_data. rewrite Hmode, Htype, Hbuf.
  split; [reflexivity | intros v; discriminate].
Qed.

Lemma repeat_call_set_completed (n : nat) (self : AyxPluginInterface) :
  (1 <= n)%nat ->
  repeat_call n set_completed self = (Ok tt, set_input_complete true self).
Proof.
  intros Hn. destruct n as [|n]; [lia|]. clear Hn.
  revert self; induction n as [|n IH]; intros self.
  - reflexivity.
  - change (repeat_call (S (S n)) set_completed self)
      with (repeat_call (S n) set_completed (set_input_complete true self)).
    rewrite IH. reflexivity.
Qed.

(** C9: [n >= 1] calls of [set_completed] all return normally and leave
    [is_complete()] true; what they leave is what one call leaves, and
    every attribute other than [input_complete] is as before. *)
Theorem set_completed_idempotent :
  forall (self : AyxPluginInterface) (n : nat),
    (1 <= n)%nat ->
    exists self',
      repeat_call n set_completed self = (Ok tt, self')
      /\ is_complete self' = true
      /\ set_completed self = (Ok tt, self')
      /\ set_completed self' = (Ok tt, self')
      /\ self_name self' = self_name self
      /\ self_initialized self' = self_initialized self
      /\ _interface_record_vars self' = _interface_record_vars self
      /\ d_progress_percentage (_interface_state self')
         = d_progress_percentage (_interface_state self)
      /\ data_processing_mode (_interface_state self')
         = data_processing_mode (_interface_state self).
Proof.
  intros self n Hn.
  exists (set_input_complete true self).
  split; [now apply repeat_call_set_completed|].
  repeat split; reflexivity.
Qed.

End InterfaceProperties.

Section BufferProperties.
Context {sdk : AlteryxPythonSDK} {pandas : Pandas} {utils : interface_utils}.

(** Decoding reads [record_info_in] and nothing else of the interface. *)
Lemma create_record_same_record_info (s1 s2 : AyxPluginInterface) (r : RecordRef) :
  record_info_in (_interface_record_vars s1)
  = record_info_in (_interface_record_vars s2) ->
  create_record_for_input_records_list s1 r
  = create_record_for_input_records_list s2 r.
Proof.
  intros Heq. unfold create_record_for_input_records_list. now rewrite Heq.
Qed.

Lemma accumulate_record_decoded (self : AyxPluginInterface) (r : RecordRef)
    (row : list value) (md : AnchorMetadata) :
  create_record_for_input_records_list self r = Ok (row, md) ->
  accumulate_record r self =
    (Ok tt,
     set_record_list_in (record_list_in (_interface_record_vars self) ++ [row])
       (set_column_metadata (Some md) self)).
Proof.
  intros Hdec. unfold accumulate_record, set_col_metadata. run_method.
  rewrite Hdec. reflexivity.
Qed.

Lemma accumulate_records_appends (records : list RecordRef) :
  forall (origin self : AyxPluginInterface),
    record_info_in (_interface_record_vars self)
    = record_info_in (_interface_record_vars origin) ->
    Forall (fun r => exists row md,
              create_record_for_input_records_list origin r = Ok (row, md))
      records ->
    exists self' rows,
      accumulate_records records self = (Ok tt, self')
      /\ record_list_in (_interface_record_vars self')
         = record_list_in (_interface_record_vars self) ++ rows
      /\ Forall2 (fun r row => exists md,
                    create_record_for_input_records_list origin r = Ok (row, md))
           records rows.
Proof.
  induction records as [|r records IH]; intros origin self Hri Hall.
  - exists self, []. rewrite app_nil_r. repeat split; constructor.
  - inversion Hall as [|? ? [row [md Hdec]] Hrest]; subst.
    assert (Hself : create_record_for_input_records_list self r = Ok (row, md))
      by (rewrite <- Hdec; now apply create_record_same_record_info).
    pose proof (accumulate_record_decoded _ _ _ _ Hself) as Hstep.
    destruct (IH origin
                (set_record_list_in
                   (record_list_in (_interface_record_vars self) ++ [row])
                   (set_column_metadata (Some md) self)))
      as (self' & rows & Hrun & Hbuf & Hrows); [exact Hri | exact Hrest |].
    exists self', (row :: rows). repeat split.
    + simpl. unfold bind at 1. rewrite Hstep. exact Hrun.
    + rewrite Hbuf. simpl. now rewrite <- app_assoc.
    + constructor; [now exists md | exact Hrows].
Qed.

(** C7: starting from an empty buffer, [N] calls of [accumulate_record]
    whose records decode all return normally and leave a buffer of length
    exactly [N] that holds the decoded rows in the order of the calls. *)
Theorem accumulate_record_fifo :
  forall (self : AyxPluginInterface) (records : list RecordRef),
    record_list_in (_interface_record_vars self) = [] ->
    Forall (fun r => exists row md,
              create_record_for_input_records_list self r = Ok (row, md))
      records ->
    exists self',
      accumulate_records records self = (Ok tt, self')
      /\ length (record_list_in (_interface_record_vars self')) = length records
      /\ Forall2 (fun r row => exists md,
                    create_record_for_input_records_list self r = Ok (row, md))
           records (record_list_in (_interface_record_vars self')).
Proof.
  intros self records Hempty Hall.
  destruct (accumulate_records_appends records self self eq_refl Hall)
    as (self' & rows & Hrun & Hbuf & Hrows).
  rewrite Hempty in Hbuf; simpl in Hbuf.
  exists self'. rewrite Hbuf. repeat split; try assumption.
  symmetry. eapply Forall2_length; eassumption.
Qed.

Lemma cleared_set_record_list_in (c : AyxPluginInterface) :
  cleared c (set_record_list_in [] c).
Proof. repeat split. Qed.

Lemma Forall2_cleared_map (l : list AyxPluginInterface) :
  Forall2 cleared l (map (set_record_list_in []) l).
Proof.
  induction l as [|c l IH]; simpl; constructor;
    [apply cleared_set_record_list_in | exact IH].
Qed.

(** C8: [clear_accumulated_records] returns normally; afterwards every
    anchor name holds as many connections as before, each with an empty
    [record_list_in] and with its [column_metadata], [record_info_in],
    [input_complete] (and the rest of its state), [initialized] flag and
    name as before; the plugin's own [initialized] flag, its engine
    variables, output anchors, required names and modes are as before. *)
Theorem clear_accumulated_records_frame :
  forall (self : AyxPlugin),
  exists self',
    clear_accumulated_records self = (Ok tt, self')
    /\ (forall name : string,
          option_Forall2 (Forall2 cleared)
            (input_anchors (_state_vars self) !! name)
            (input_anchors (_state_vars self') !! name))
    /\ initialized (_state_vars self') = initialized (_state_vars self)
    /\ output_anchors (_state_vars self') = output_anchors (_state_vars self)
    /\ required_input_names (_state_vars self')
       = required_input_names (_state_vars self)
    /\ _engine_vars self' = _engine_vars self
    /\ process_data_mode self' = process_data_mode self
    /\ process_data_input_type self' = process_data_input_type self.
Proof.
  intros self. eexists; split; [reflexivity|].
  repeat split.
  intros name. simpl. rewrite lookup_fmap.
  destruct (input_anchors (_state_vars self) !! name) as [l|]; simpl;
    constructor. apply Forall2_cleared_map.
Qed.

End BufferProperties.

Section CompletionProperties.
Context {sdk : AlteryxPythonSDK} {pandas : Pandas} {utils : interface_utils}.

Lemma forallb_true_Forall {A} (f : A -> bool) (l : list A) :
  forallb f l = true <-> Forall (fun x => f x = true) l.
Proof.
  induction l as [|x l IH]; simpl.
  - split; [constructor | reflexivity].
  - rewrite andb_true_iff, IH. split.
    + intros [Hx Hl]. now constructor.
    + intros Hall. inversion Hall; subst. now split.
Qed.

(** The test the loop makes on one anchor, read as a proposition. *)
Lemma anchor_test_false (connections : list AyxPluginInterface) :
  Nat.eqb (length connections) 0 || negb (forallb is_complete connections) = false
  <-> connections <> [] /\ Forall (fun c => is_complete c = true) connections.
Proof.
  rewrite orb_false_iff, negb_false_iff, forallb_true_Forall.
  destruct connections as [|c l]; simpl; split; intros [Hne Hall];
    (split; [congruence || discriminate | assumption]).
Qed.

Lemma all_inputs_completed_loop_spec
    (anchors : gmap string (list AyxPluginInterface)) (names : list string) :
  forall acc : bool,
    Forall (fun n => is_Some (anchors !! n)) names ->
    exists b,
      all_inputs_completed_loop anchors names acc = Ok b
      /\ (b = true <->
          acc = true
          /\ Forall (fun n => exists connections,
                       anchors !! n = Some connections
                       /\ connections <> []
                       /\ Forall (fun c => is_complete c = true) connections)
               names).
Proof.
  induction names as [|n names IH]; intros acc Hwf; simpl.
  - exists acc. split; [reflexivity|]. split; [intros ->; now split | now intros [-> _]].
  - inversion Hwf as [|? ? [connections Hn] Hrest]; subst. rewrite Hn.
    destruct (Nat.eqb (length connections) 0
              || negb (forallb is_complete connections)) eqn:Htest.
    + destruct (IH false Hrest) as (b & Hrun & Hb).
      exists b. split; [exact Hrun|]. split.
      * intros Htrue. apply Hb in Htrue as [Habs _]. discriminate.
      * intros [_ Hall]. inversion Hall as [|? ? (l & Hl & Hne & Hcomp) _]; subst.
        rewrite Hn in Hl; injection Hl as <-.
        assert (Hfalse : Nat.eqb (length connections) 0
                         || negb (forallb is_complete connections) = false)
          by (apply anchor_test_false; now split).
        congruence.
    + destruct (IH acc Hrest) as (b & Hrun & Hb).
      exists b. split; [exact Hrun|]. rewrite Hb. split.
      * intros [Hacc Hall]. split; [exact Hacc|]. constructor; [|exact Hall].
        exists connections. apply anchor_test_false in Htest as [Hne Hcomp].
        now repeat split.
      * intros [Hacc Hall]. inversion Hall; subst. now split.
Qed.

(** C3: on a plugin whose required names all have an entry in
    [input_anchors] (as the constructor leaves it), [all_inputs_completed]
    returns normally, and returns true if and only if the plugin is
    initialized, every required name has at least one connection and every
    connection of every required name is complete.  In particular it
    returns false as soon as one required name has no connection. *)
Theorem all_inputs_completed_iff :
  forall (self : AyxPlugin),
    Forall (fun n => is_Some (input_anchors (_state_vars self) !! n))
      (required_input_names (_state_vars self)) ->
    exists b,
      all_inputs_completed self = Ok b
      /\ (b = true <->
          initialized (_state_vars self) = true
          /\ Forall (fun n => exists connections,
                       input_anchors (_state_vars self) !! n = Some connections
                       /\ connections <> []
                       /\ Forall (fun c => is_complete c = true) connections)
               (required_input_names (_state_vars self)))
      /\ (Exists (fun n => input_anchors (_state_vars self) !! n = Some [])
            (required_input_names (_state_vars self)) ->
          b = false).
Proof.
  intros self Hwf. unfold all_inputs_completed.
  assert (Hiff : exists b,
    (if initialized (_state_vars self)
     then all_inputs_completed_loop (input_anchors (_state_vars self))
            (required_input_names (_state_vars self)) true
     else Ok false) = Ok b
    /\ (b = true <->
        initialized (_state_vars self) = true
        /\ Forall (fun n => exists connections,
                     input_anchors (_state_vars self) !! n = Some connections
                     /\ connections <> []
                     /\ Forall (fun c => is_complete c = true) connections)
             (required_input_names (_state_vars self)))).
  { destruct (initialized (_state_vars self)).
    - destruct (all_inputs_completed_loop_spec _ _ true Hwf) as (b & Hrun & Hb).
      exists b. split; [exact Hrun|]. rewrite Hb. reflexivity.
    - exists false. split; [reflexivity|]. split; [discriminate | now intros [? _]]. }
  destruct Hiff as (b & Hrun & Hb). exists b. repeat split; try assumption.
  - now apply Hb.
  - now apply Hb.
  - now apply Hb.
  - intros Hempty. destruct b; [|reflexivity].
    destruct Hb as [Hb _]. destruct (Hb eq_refl) as [_ Hall].
    apply Exists_exists in Hempty as (n & Hin & Hnone).
    rewrite Forall_forall in Hall.
    destruct (Hall n Hin) as (l & Hl & Hne & _). congruence.
Qed.

End CompletionProperties.

Section OutputProperties.
Context {sdk : AlteryxPythonSDK} {pandas : Pandas} {utils : interface_utils}.

Lemma push_records_unfold (plugin : AyxPlugin) (self : OutputAnchor) :
  push_records plugin self =
    match get_data_list self with
    | Err e => (Err e, self)
    | Ok None => (Ok tt, self)
    | Ok (Some rows) =>
        (negotiate plugin ;;
         push_records_loop (_metadata self) rows ;;
         OutputAnchor_data_setter PNone) self
    end.
Proof.
  unfold push_records, negotiate, OutputAnchor_metadata, bind, gets.
  destruct (get_data_list self) as [[rows|]|e]; try reflexivity.
Qed.

Lemma push_metadata_committed (plugin : AyxPlugin) (self : OutputAnchor)
    (ri : RecordInfo) :
  _record_info_out self = Some ri -> push_metadata plugin self = (Ok tt, self).
Proof.
  intros Hri. unfold push_metadata, bind, gets, ret. now rewrite Hri.
Qed.

Lemma negotiate_committed (plugin : AyxPlugin) (self : OutputAnchor)
    (ri : RecordInfo) :
  _record_info_out self = Some ri -> negotiate plugin self = (Ok tt, self).
Proof.
  intros Hri. unfold negotiate, bind, gets.
  destruct (not_record_info_out self);
    [now apply (push_metadata_committed plugin self ri) | reflexivity].
Qed.

Lemma negotiate_first (plugin : AyxPlugin) (self : OutputAnchor)
    (h : OutputHandler) (ri : RecordInfo) :
  _record_info_out self = None ->
  _handler self = Some h ->
  build_ayx_record_info (_metadata self) (create_record_info plugin) = (Ok tt, ri) ->
  negotiate plugin self =
    (Ok tt,
     set__handler (Some (handler_init ri h)) (set__record_info_out (Some ri) self)).
Proof.
  intros Hnone Hh Hbuild.
  unfold negotiate, not_record_info_out, push_metadata, OutputAnchor_metadata,
    on_handler.
  run_method. rewrite Hnone; simpl. rewrite Hbuild; simpl.
  rewrite Hnone, Hh. reflexivity.
Qed.

(** Negotiation leaves the payload, the schema and the record creator. *)
Lemma negotiate_frame (plugin : AyxPlugin) (self self' : OutputAnchor)
    (r : res unit) :
  negotiate plugin self = (r, self') ->
  _data self' = _data self
  /\ _metadata self' = _metadata self
  /\ _record_creator self' = _record_creator self.
Proof.
  unfold negotiate, not_record_info_out, push_metadata, OutputAnchor_metadata,
    on_handler.
  run_method.
  destruct (_record_info_out self) as [ri|] eqn:Hri; simpl.
  - destruct (negb (record_info_bool ri)); rewrite ?Hri;
      intros [= <- <-]; now repeat split.
  - rewrite ?Hri.
    destruct (build_ayx_record_info (_metadata self) (create_record_info plugin))
      as [[[]|e] ri]; simpl.
    + destruct (_handler self); intros [= <- <-]; now repeat split.
    + intros [= <- <-]; now repeat split.
Qed.

Lemma pushed_nil (h : OutputHandler) : pushed [] h = h.
Proof. destruct h; unfold pushed; simpl. now rewrite app_nil_r. Qed.

Lemma pushed_cons (r : RecordRef) (records : list RecordRef) (h : OutputHandler) :
  pushed records (handler_push_record r false h) = pushed (r :: records) h.
Proof. unfold pushed, handler_push_record; simpl. now rewrite <- app_assoc. Qed.

Lemma push_records_loop_encodes (md : option AnchorMetadata) (rows : list value) :
  forall (self : OutputAnchor) (h : OutputHandler) (records : list RecordRef)
         (last : option RecordCreator),
    _handler self = Some h ->
    encode_rows md (_record_info_out self) (_record_creator self) rows
    = Ok (records, last) ->
    push_records_loop md rows self =
      (Ok tt,
       {| _data := _data self;
          _metadata := _metadata self;
          _record_info_out := _record_info_out self;
          _record_creator := last;
          _handler := Some (pushed records h) |}).
Proof.
  induction rows as [|row rows IH]; intros self h records last Hh Henc; simpl in *.
  - injection Henc as <- <-. rewrite pushed_nil. unfold ret.
    destruct self; simpl in *. now subst.
  - unfold on_handler. run_method.
    destruct (build_ayx_record_from_list row md (_record_info_out self)
                (_record_creator self)) as [[record creator']|e];
      [|discriminate]; simpl.
    rewrite Hh; simpl.
    destruct (encode_rows md (_record_info_out self) (Some creator') rows)
      as [[records' last']|e] eqn:Hrest; [|discriminate].
    injection Henc as <- <-.
    erewrite IH; [|reflexivity|exact Hrest]; simpl.
    now rewrite pushed_cons.
Qed.

Lemma encode_rows_length (md : option AnchorMetadata) (ri : option RecordInfo)
    (rows : list value) :
  forall (creator last : option RecordCreator) (records : list RecordRef),
    encode_rows md ri creator rows = Ok (records, last) ->
    length records = length rows.
Proof.
  induction rows as [|row rows IH]; intros creator last records Henc; simpl in *.
  - now injection Henc as <- <-.
  - destruct (build_ayx_record_from_list row md ri creator)
      as [[record creator']|e]; [|discriminate].
    destruct (encode_rows md ri (Some creator') rows)
      as [[records' last']|e] eqn:Hrest; [|discriminate].
    injection Henc as <- <-. simpl. f_equal. eapply IH; eassumption.
Qed.

Lemma encode_rows_positionwise (md : option AnchorMetadata)
    (ri : option RecordInfo) (rows : list value) :
  forall (creator last : option RecordCreator) (records : list RecordRef),
    encode_rows md ri creator rows = Ok (records, last) ->
    Forall2
      (fun row record => exists c c',
         build_ayx_record_from_list row md ri c = Ok (record, c'))
      rows records.
Proof.
  induction rows as [|row rows IH]; intros creator last records Henc; simpl in *.
  - injection Henc as <- <-. constructor.
  - destruct (build_ayx_record_from_list row md ri creator)
      as [[record creator']|e] eqn:Hrow; [|discriminate].
    destruct (encode_rows md ri (Some creator') rows)
      as [[records' last']|e] eqn:Hrest; [|discriminate].
    injection Henc as <- <-. constructor; [now exists creator, creator'|].
    eapply IH; eassumption.
Qed.

(** The push loop never touches the record info or the handler's
    initialisations, whether it ends normally or not. *)
Lemma push_records_loop_keeps_binding (md : option AnchorMetadata)
    (rows : list value) :
  forall (self self' : OutputAnchor) (r : res unit),
    push_records_loop md rows self = (r, self') ->
    _record_info_out self' = _record_info_out self /\ bound self' = bound self.
Proof.
  induction rows as [|row rows IH]; intros self self' r; simpl.
  - intros [= <- <-]. now split.
  - unfold on_handler. run_method.
    destruct (build_ayx_record_from_list row md (_record_info_out self)
                (_record_creator self)) as [[record creator']|e]; simpl.
    + destruct (_handler self) as [h|] eqn:Hh; simpl.
      * intros Hrun. apply IH in Hrun as [Hri Hb]. simpl in *.
        split; [exact Hri|]. rewrite Hb. unfold bound; simpl. now rewrite Hh.
      * intros [= <- <-]. unfold bound; simpl. now split.
    + intros [= <- <-]. now split.
Qed.

Lemma push_records_keeps_binding (plugin : AyxPlugin) (self self' : OutputAnchor)
    (ri : RecordInfo) (r : res unit) :
  _record_info_out self = Some ri ->
  push_records plugin self = (r, self') ->
  _record_info_out self' = Some ri /\ bound self' = bound self.
Proof.
  intros Hri. rewrite push_records_unfold.
  destruct (get_data_list self) as [[rows|]|e].
  - unfold bind. rewrite (negotiate_committed plugin self ri Hri).
    destruct (push_records_loop (_metadata self) rows self) as [r' s'] eqn:Hloop.
    apply push_records_loop_keeps_binding in Hloop as [Hri' Hb].
    destruct r'; intros [= <- <-]; unfold bound in *; simpl; split; congruence.
  - intros [= <- <-]. now split.
  - intros [= <- <-]. now split.
Qed.

Lemma session_keeps_binding (plugin : AyxPlugin) (calls : list call) :
  forall (self : OutputAnchor) (ri : RecordInfo),
    _record_info_out self = Some ri ->
    _record_info_out (session plugin calls self) = Some ri
    /\ bound (session plugin calls self) = bound self.
Proof.
  induction calls as [|c calls IH]; intros self ri Hri; simpl.
  - now split.
  - destruct (run_call plugin c self) as [r s'] eqn:Hcall; simpl.
    assert (Hstep : _record_info_out s' = Some ri /\ bound s' = bound self).
    { destruct c; simpl in Hcall.
      - injection Hcall as <- <-. now split.
      - injection Hcall as <- <-. now split.
      - eapply push_records_keeps_binding; eassumption. }
    destruct Hstep as [Hri' Hb]. destruct (IH s' ri Hri') as [Hri'' Hb'].
    split; congruence.
Qed.

(** C2, evaluated on the code: with [data] at [None], [push_records]
    returns normally and leaves the anchor as it was (nothing pushed,
    nothing negotiated); with [data] at the empty list it raises
    [IndexError], from the unguarded [self._data[0]] of [get_data_list],
    and also leaves the anchor as it was. *)
Theorem push_records_null_returns_empty_list_raises :
  forall (plugin : AyxPlugin) (self : OutputAnchor),
    push_records plugin (set__data PNone self) = (Ok tt, set__data PNone self)
    /\ get_data_list (set__data (PList []) self) = Err IndexError
    /\ push_records plugin (set__data (PList []) self)
       = (Err IndexError, set__data (PList []) self).
Proof.
  intros plugin self. repeat split.
Qed.

Lemma get_data_list_normalized (self : OutputAnchor) :
  _data self <> PNone ->
  _data self <> PList [] ->
  get_data_list self = Ok (Some (normalized_payload (_data self))).
Proof.
  intros Hnull Hempty. unfold get_data_list, normalized_payload.
  destruct (_data self) as [|df|[|first rest]]; try congruence.
  now destruct (is_list first).
Qed.

Lemma negotiate_unbound (plugin : AyxPlugin) (self : OutputAnchor) :
  _record_info_out self = None ->
  negotiate plugin self =
    match build_ayx_record_info (_metadata self) (create_record_info plugin),
          _handler self with
    | (Ok _, ri), Some h =>
        (Ok tt,
         set__handler (Some (handler_init ri h))
           (set__record_info_out (Some ri) self))
    | (Ok _, ri), None =>
        (Err AttributeError, set__record_info_out (Some ri) self)
    | (Err e, ri), _ => (Err e, set__record_info_out (Some ri) self)
    end.
Proof.
  intros Hnone.
  unfold negotiate, not_record_info_out, push_metadata, OutputAnchor_metadata,
    on_handler.
  run_method. rewrite Hnone; simpl.
  destruct (build_ayx_record_info (_metadata self) (create_record_info plugin))
    as [[[]|e] ri]; simpl; rewrite ?Hnone; [|reflexivity].
  destruct (_handler self); reflexivity.
Qed.

(** One [push_records] on an anchor without record info either leaves it
    without record info and the handler as initialised as before, or
    leaves it with a record info and the handler initialised at most once
    more, with that record info. *)
Lemma push_records_from_unbound (plugin : AyxPlugin) (self self' : OutputAnchor)
    (r : res unit) :
  _record_info_out self = None ->
  push_records plugin self = (r, self') ->
  (_record_info_out self' = None /\ bound self' = bound self)
  \/ (exists ri,
        _record_info_out self' = Some ri
        /\ (bound self' = bound self
            \/ bound self' = (fun l => l ++ [ri]) <$> bound self)).
Proof.
  intros Hnone. rewrite push_records_unfold.
  destruct (get_data_list self) as [[rows|]|e].
  - unfold bind at 1. rewrite (negotiate_unbound plugin self Hnone).
    destruct (build_ayx_record_info (_metadata self) (create_record_info plugin))
      as [[[]|e] ri].
    + destruct (_handler self) as [h|] eqn:Hh.
      * unfold bind at 1.
        destruct (push_records_loop (_metadata self) rows _) as [r' s'] eqn:Hloop.
        apply push_records_loop_keeps_binding in Hloop as [Hri Hb].
        intros Hrun. right. exists ri.
        assert (Hs' : _record_info_out s' = Some ri
                      /\ bound s' = (fun l => l ++ [ri]) <$> bound self).
        { split; [exact Hri|]. rewrite Hb. unfold bound; simpl. now rewrite Hh. }
        destruct Hs' as [Hri' Hb'].
        destruct r'; injection Hrun as <- <-; unfold bound in *; simpl in *;
          (split; [exact Hri' | right; exact Hb']).
      * intros [= <- <-]. right. exists ri. split; [reflexivity | now left].
    + destruct (_handler self); intros [= <- <-]; right; exists ri;
        (split; [reflexivity | now left]).
  - intros [= <- <-]. left. now split.
  - intros [= <- <-]. left. now split.
Qed.

(** Through any sequence of calls on an anchor that starts without record
    info, the handler is initialised at most once, and then with the
    record info the anchor holds. *)
Lemma session_binds_at_most_once (plugin : AyxPlugin) (calls : list call) :
  forall self : OutputAnchor,
    _record_info_out self = None ->
    bound (session plugin calls self) = bound self
    \/ (exists ri,
          _record_info_out (session plugin calls self) = Some ri
          /\ bound (session plugin calls self)
             = (fun l => l ++ [ri]) <$> bound self).
Proof.
  induction calls as [|c calls IH]; intros self Hnone; simpl; [now left|].
  destruct (run_call plugin c self) as [r s1] eqn:Hcall; simpl.
  assert (Hstep :
    (_record_info_out s1 = None /\ bound s1 = bound self)
    \/ (exists ri,
          _record_info_out s1 = Some ri
          /\ (bound s1 = bound self
              \/ bound s1 = (fun l => l ++ [ri]) <$> bound self))).
  { destruct c; simpl in Hcall.
    - injection Hcall as <- <-. left. now split.
    - injection Hcall as <- <-. left. now split.
    - eapply push_records_from_unbound; eassumption. }
  destruct Hstep as [[Hnone1 Hb1]|(ri & Hri1 & Hb1)].
  - rewrite <- Hb1. now apply IH.
  - destruct (session_keeps_binding plugin calls s1 ri Hri1) as [Hri Hb].
    destruct Hb1 as [Hsame|Hmore].
    + left. congruence.
    + right. exists ri. split; [exact Hri | congruence].
Qed.

(** C4: for a payload that is neither [None] nor the empty list,
    [get_data_list] answers the normalized payload (a dataframe's rows, a
    list of lists as it is, any other list wrapped as the one row of a
    singleton sequence).  When negotiation succeeds and every row of the
    normalized payload encodes, [push_records] returns normally, the
    handler has received the encoded rows, one [push_record] each and in
    payload order, after what it had received before, each row was encoded
    against the anchor's schema with the record creator the previous row's
    encoding returned, and [data] is [None] afterwards. *)
Theorem push_records_pushes_in_order :
  forall (plugin : AyxPlugin) (self after_negotiation : OutputAnchor)
         (h : OutputHandler)
         (records : list RecordRef) (last : option RecordCreator),
    _data self <> PNone ->
    _data self <> PList [] ->
    negotiate plugin self = (Ok tt, after_negotiation) ->
    _handler after_negotiation = Some h ->
    encode_rows (_metadata self) (_record_info_out after_negotiation)
      (_record_creator self) (normalized_payload (_data self))
    = Ok (records, last) ->
    get_data_list self = Ok (Some (normalized_payload (_data self)))
    /\ push_records plugin self =
         (Ok tt,
          {| _data := PNone;
             _metadata := _metadata self;
             _record_info_out := _record_info_out after_negotiation;
             _record_creator := last;
             _handler := Some (pushed records h) |})
    /\ length records = length (normalized_payload (_data self))
    /\ Forall2
         (fun row record => exists creator creator',
            build_ayx_record_from_list row (_metadata self)
              (_record_info_out after_negotiation) creator
            = Ok (record, creator'))
         (normalized_payload (_data self)) records.
Proof.
  intros plugin self s1 h records last Hnull Hempty Hneg Hh Henc.
  pose proof (get_data_list_normalized self Hnull Hempty) as Hdata.
  destruct (negotiate_frame _ _ _ _ Hneg) as (Hd & Hm & Hc).
  split; [exact Hdata|]. split; [|split].
  - rewrite push_records_unfold, Hdata. unfold bind at 1. rewrite Hneg.
    unfold bind. rewrite <- Hm, <- Hc in Henc.
    rewrite <- Hm. rewrite (push_records_loop_encodes _ _ _ _ _ _ Hh Henc).
    reflexivity.
  - eapply encode_rows_length; eassumption.
  - eapply encode_rows_positionwise; eassumption.
Qed.

(** C1 (as the code has it): on an anchor that has no record info yet and
    whose handler has been saved, the first [push_records] with a payload
    that is a dataframe or a non-empty list, when the record info builds,
    builds it from the anchor's metadata and initialises the handler with
    it.  From then on, through any sequence of [data] assignments,
    [metadata] assignments and [push_records] calls, the record info stays
    that one and the handler is never initialised again: the sink is bound
    once, with the first schema.  Assigning another schema raises nothing,
    and a later [push_records] makes no check on the schema: it goes from
    reading the payload straight to encoding and pushing its rows.  And
    whatever the anchor, its payloads and its handler, a run that starts
    without record info initialises the handler at most once. *)
Theorem schema_bound_once :
  forall (plugin : AyxPlugin) (self after_first : OutputAnchor)
         (h : OutputHandler) (ri : RecordInfo)
         (outcome : res unit) (calls : list call),
    _record_info_out self = None ->
    _handler self = Some h ->
    _data self <> PNone ->
    _data self <> PList [] ->
    build_ayx_record_info (_metadata self) (create_record_info plugin)
    = (Ok tt, ri) ->
    push_records plugin self = (outcome, after_first) ->
    (_record_info_out after_first = Some ri
     /\ bound after_first = Some (init_calls h ++ [ri]))
    /\ (_record_info_out (session plugin calls after_first) = Some ri
        /\ bound (session plugin calls after_first) = Some (init_calls h ++ [ri]))
    /\ (forall (later : OutputAnchor) (metadata : option AnchorMetadata),
          run_call plugin (SetMetadata metadata) later
          = (Ok tt, set__metadata metadata later))
    /\ (forall later : OutputAnchor,
          _record_info_out later = Some ri ->
          push_records plugin later =
            match get_data_list later with
            | Err e => (Err e, later)
            | Ok None => (Ok tt, later)
            | Ok (Some rows) =>
                (push_records_loop (_metadata later) rows ;;
                 OutputAnchor_data_setter PNone) later
            end)
    /\ (forall (fresh : OutputAnchor) (run : list call),
          _record_info_out fresh = None ->
          bound (session plugin run fresh) = bound fresh
          \/ (exists ri',
                _record_info_out (session plugin run fresh) = Some ri'
                /\ bound (session plugin run fresh)
                   = (fun l => l ++ [ri']) <$> bound fresh)).
Proof.
  intros plugin self s1 h ri outcome calls Hnone Hh Hnull Hempty Hbuild Hpush.
  pose proof (get_data_list_normalized self Hnull Hempty) as Hdata.
  assert (Hfirst : _record_info_out s1 = Some ri
                   /\ bound s1 = Some (init_calls h ++ [ri])).
  { rewrite push_records_unfold, Hdata in Hpush. unfold bind at 1 in Hpush.
    rewrite (negotiate_first plugin self h ri Hnone Hh Hbuild) in Hpush.
    unfold bind in Hpush.
    destruct (push_records_loop (_metadata self)
                (normalized_payload (_data self))
                (set__handler (Some (handler_init ri h))
                   (set__record_info_out (Some ri) self)))
      as [r' s'] eqn:Hloop.
    apply push_records_loop_keeps_binding in Hloop as [Hri' Hb].
    destruct r'; injection Hpush as <- <-; unfold bound in *; simpl in *;
      split; solve [exact Hri' | rewrite Hb; reflexivity]. }
  destruct Hfirst as [Hri Hb].
  split; [now split|]. split; [|split; [|split]].
  - destruct (session_keeps_binding plugin calls s1 ri Hri) as [Hri' Hb'].
    split; congruence.
  - reflexivity.
  - intros later Hlater.
    rewrite push_records_unfold.
    destruct (get_data_list later) as [[rows|]|e]; try reflexivity.
    unfold bind at 1.
    now rewrite (negotiate_committed plugin later ri Hlater).
  - intros fresh run Hfresh. now apply session_binds_at_most_once.
Qed.

End OutputProperties.

(** * The properties on the small engine *)

(** C1, the claim as written fails: after a first push has committed the
    schema [id, tag], assigning a different schema and pushing again both
    return normally; no [SchemaAlreadyCommittedError] is raised. *)
Lemma schema_change_after_commit_not_rejected :
  let plugin := toy_plugin true ∅ [] "batch" "list" in
  let first_schema := toy_schema [("id", "Int"); ("tag", "String")] in
  let other_schema := toy_schema [("ratio", "Double")] in
  let after_first :=
    snd (@push_records toy_sdk toy_pandas toy_utils plugin
           (toy_anchor (PList [VList [VInt 1; VStr "a"]]) (Some first_schema))) in
  let reissued :=
    @OutputAnchor_metadata_setter toy_sdk toy_pandas (Some other_schema)
      after_first in
  let second :=
    @push_records toy_sdk toy_pandas toy_utils plugin
      (@set__data toy_sdk toy_pandas (PList [VList [VInt 5]]) (snd reissued)) in
  first_schema <> other_schema
  /\ @_record_info_out toy_sdk toy_pandas after_first
     = Some [("id", "Int"); ("tag", "String")]
  /\ fst reissued = Ok tt
  /\ @_metadata toy_sdk toy_pandas (snd reissued) = Some other_schema
  /\ fst second = Ok tt
  /\ fst second <> Err (Raised "SchemaAlreadyCommittedError")
  /\ @bound toy_sdk toy_pandas (snd second)
     = Some [[("id", "Int"); ("tag", "String")]].
Proof.
  cbv zeta. repeat split; try reflexivity; discriminate.
Qed.

Lemma schema_bound_once_witness :
  let plugin := toy_plugin true ∅ [] "batch" "list" in
  let self :=
    toy_anchor (PList [VInt 1; VStr "a"])
      (Some (toy_schema [("id", "Int"); ("tag", "String")])) in
  let calls :=
    [SetMetadata (Some (toy_schema [("ratio", "Double")]));
     SetData (PList [VList [VInt 5]]);
     PushRecords;
     SetData (PList []);
     PushRecords] in
  @bound toy_sdk toy_pandas
    (@session toy_sdk toy_pandas toy_utils plugin calls
       (snd (@push_records toy_sdk toy_pandas toy_utils plugin self)))
  = Some ([] ++ [[("id", "Int"); ("tag", "String")]]).
Proof.
  intros plugin self calls.
  apply (@schema_bound_once toy_sdk toy_pandas toy_utils plugin self
           (snd (@push_records toy_sdk toy_pandas toy_utils plugin self))
           toy_handler
           [("id", "Int"); ("tag", "String")] (Ok tt) calls);
    first [reflexivity | discriminate].
Defined.

Lemma all_inputs_completed_iff_witness :
  all_inputs_completed
    (toy_plugin true
       (<["A" := [toy_connection [[VInt 1; VStr "x"]; [VInt 2; VStr "y"]] true]]>
          (<["B" := []]> ∅))
       ["A"] "batch" "list") = Ok true
  /\ all_inputs_completed
       (toy_plugin true
          (<["A" := [toy_connection [] true]]> (<["B" := []]> ∅))
          ["A"; "B"] "batch" "list") = Ok false.
Proof.
  split.
  - destruct (all_inputs_completed_iff
                (toy_plugin true
                   (<["A" := [toy_connection [[VInt 1; VStr "x"]; [VInt 2; VStr "y"]] true]]>
                      (<["B" := []]> ∅))
                   ["A"] "batch" "list")) as (b & Hrun & Hiff & _).
    + repeat constructor; eexists; reflexivity.
    + rewrite Hrun. f_equal. apply Hiff. split; [reflexivity|].
      repeat constructor. eexists. split; [reflexivity|].
      split; [discriminate|]. repeat constructor.
  - destruct (all_inputs_completed_iff
                (toy_plugin true
                   (<["A" := [toy_connection [] true]]> (<["B" := []]> ∅))
                   ["A"; "B"] "batch" "list")) as (b & Hrun & _ & Hempty).
    + repeat constructor; eexists; reflexivity.
    + rewrite Hrun. f_equal. apply Hempty.
      apply Exists_cons_tl, Exists_cons_hd. reflexivity.
Defined.

Lemma push_records_pushes_in_order_witness :
  let plugin := toy_plugin true ∅ [] "batch" "list" in
  let schema := toy_schema [("id", "Int"); ("val", "Double"); ("tag", "String")] in
  let fields := [("id", "Int"); ("val", "Double"); ("tag", "String")] in
  let row1 := [VInt 1; VFloat 4612811918334230528; VStr "a"] in
  let row2 := [VInt 2; VFloat 0; VStr "b"] in
  @push_records toy_sdk toy_pandas toy_utils plugin
    (toy_anchor (PList row1) (Some schema))
  = (Ok tt,
     @mkOutputAnchor toy_sdk toy_pandas PNone (Some schema) (Some fields)
       (Some tt)
       (Some (@mkOutputHandler toy_sdk [fields] [(row1, false)])))
  /\ @push_records toy_sdk toy_pandas toy_utils plugin
       (toy_anchor (PList [VList row1; VList row2]) (Some schema))
     = (Ok tt,
        @mkOutputAnchor toy_sdk toy_pandas PNone (Some schema) (Some fields)
          (Some tt)
          (Some (@mkOutputHandler toy_sdk [fields]
                   [(row1, false); (row2, false)]))).
Proof.
  intros plugin schema fields row1 row2. split.
  - apply (proj1 (proj2
      (@push_records_pushes_in_order toy_sdk toy_pandas toy_utils plugin
         (toy_anchor (PList row1) (Some schema))
         (snd (@negotiate toy_sdk toy_pandas toy_utils plugin
                 (toy_anchor (PList row1) (Some schema))))
         (@mkOutputHandler toy_sdk [fields] [])
         [row1] (Some tt)
         ltac:(discriminate) ltac:(discriminate)
         eq_refl eq_refl eq_refl))).
  - apply (proj1 (proj2
      (@push_records_pushes_in_order toy_sdk toy_pandas toy_utils plugin
         (toy_anchor (PList [VList row1; VList row2]) (Some schema))
         (snd (@negotiate toy_sdk toy_pandas toy_utils plugin
                 (toy_anchor (PList [VList row1; VList row2]) (Some schema))))
         (@mkOutputHandler toy_sdk [fields] [])
         [row1; row2] (Some tt)
         ltac:(discriminate) ltac:(discriminate)
         eq_refl eq_refl eq_refl))).
Defined.

Lemma data_stream_first_row_batch_whole_buffer_witness :
  let buffer := [[VInt 1; VStr "x"]; [VInt 2; VStr "y"]] in
  AyxPluginInterface_data (toy_plugin true ∅ [] "stream" "list")
    (toy_connection buffer false) = Ok (DataRow [VInt 1; VStr "x"])
  /\ AyxPluginInterface_data (toy_plugin true ∅ [] "batch" "list")
       (toy_connection buffer false) = Ok (DataList buffer).
Proof.
  intros buffer.
  apply (data_stream_first_row_batch_whole_buffer
           (toy_plugin true ∅ [] "stream" "list")
           (toy_plugin true ∅ [] "batch" "list")
           (toy_connection buffer false)); reflexivity.
Defined.

Lemma data_stream_empty_buffer_IndexError_witness :
  AyxPluginInterface_data (toy_plugin true ∅ [] "stream" "list")
    (toy_connection [] false) = Err IndexError.
Proof.
  apply (proj1
    (data_stream_empty_buffer_IndexError
       (toy_plugin true ∅ [] "stream" "list") (toy_connection [] false)
       eq_refl eq_refl eq_refl)).
Defined.

Lemma accumulate_record_fifo_witness :
  exists self',
    @accumulate_records toy_sdk toy_pandas toy_utils
      [[VInt 1; VStr "x"]; [VInt 2; VStr "y"]] (toy_connection [] false)
    = (Ok tt, self')
    /\ length (record_list_in (_interface_record_vars self')) = 2%nat.
Proof.
  destruct (@accumulate_record_fifo toy_sdk toy_pandas toy_utils
              (toy_connection [] false)
              [[VInt 1; VStr "x"]; [VInt 2; VStr "y"]])
    as (self' & Hrun & Hlen & _).
  - reflexivity.
  - repeat constructor; do 2 eexists; reflexivity.
  - exists self'. split; [exact Hrun | exact Hlen].
Defined.

Lemma set_completed_idempotent_witness :
  exists self',
    repeat_call 3 set_completed (toy_connection [[VInt 1]] false) = (Ok tt, self')
    /\ is_complete self' = true.
Proof.
  destruct (set_completed_idempotent (toy_connection [[VInt 1]] false) 3)
    as (self' & Hrun & Hcomplete & _).
  - lia.
  - exists self'. split; [exact Hrun | exact Hcomplete].
Defined.

(** * Further properties of the schema *)

Section SchemaLookup.
Context {sdk : AlteryxPythonSDK}.

Lemma index_of_from_spec (cs : list Column_Metadata) (n : string) :
  forall i0 : Z,
    0 <= i0 ->
    (index_of_from i0 cs n = -1 /\ n ∉ map name cs)
    \/ (exists k : nat,
          index_of_from i0 cs n = i0 + Z.of_nat k
          /\ map name cs !! k = Some n
          /\ forall j : nat, (j < k)%nat -> map name cs !! j <> Some n).
Proof.
  induction cs as [|c cs IH]; intros i0 Hi0; simpl.
  - left. split; [reflexivity | apply not_elem_of_nil].
  - destruct (String.eqb_spec (name c) n) as [Heq|Hne].
    + right. exists 0%nat. split; [lia|]. split; [now rewrite Heq|].
      intros j Hj; lia.
    + destruct (IH (i0 + 1)) as [[Hnone Hnot]|(k & Hk & Hat & Hfirst)]; [lia| |].
      * left. split; [exact Hnone|]. rewrite not_elem_of_cons. now split.
      * right. exists (S k). split; [lia|]. split; [exact Hat|].
        intros [|j] Hj; simpl; [congruence | apply Hfirst; lia].
Qed.

Lemma index_of_from_app_absent (cs : list Column_Metadata) (c : Column_Metadata)
    (n : string) :
  forall i0 : Z,
    index_of_from i0 cs n = -1 ->
    name c <> n ->
    index_of_from i0 (cs ++ [c]) n = -1.
Proof.
  induction cs as [|c0 cs IH]; intros i0 Hnone Hne; simpl in *.
  - destruct (String.eqb_spec (name c) n); [contradiction | reflexivity].
  - destruct (String.eqb (name c0) n); [exact Hnone | now apply IH].
Qed.

(** [index_of] answers [-1] exactly for the names the schema does not
    have, and otherwise the position of the first column of that name. *)
Theorem index_of_first_occurrence :
  forall (self : AnchorMetadata) (n : string),
    (index_of self n = -1 <-> n ∉ get_column_names self)
    /\ (n ∈ get_column_names self ->
        exists k : nat,
          index_of self n = Z.of_nat k
          /\ get_column_names self !! k = Some n
          /\ forall j : nat, (j < k)%nat -> get_column_names self !! j <> Some n).
Proof.
  intros self n. unfold index_of, get_column_names.
  destruct (index_of_from_spec (columns self) n 0) as [[Hnone Hnot]|(k & Hk & Hat & Hfirst)];
    [lia| |].
  - split; [now split | intros Hin; contradiction].
  - assert (Hin : n ∈ map name (columns self))
      by (apply list_elem_of_lookup; now exists k).
    split.
    + split; [lia | intros Hnot; contradiction].
    + intros _. exists k. split; [lia|]. now split.
Qed.

(** [get_column_by_name] answers [None] exactly for the names the schema
    does not have, and otherwise the first column of that name: never a
    column of another name, never the [-1] sentinel used as an index. *)
Theorem get_column_by_name_first_of_that_name :
  forall (self : AnchorMetadata) (n : string),
    match get_column_by_name self n with
    | None => n ∉ get_column_names self
    | Some c =>
        name c = n
        /\ exists k : nat,
             index_of self n = Z.of_nat k
             /\ columns self !! k = Some c
             /\ forall j : nat, (j < k)%nat -> get_column_names self !! j <> Some n
    end.
Proof.
  intros self n. unfold get_column_by_name, index_of, get_column_names.
  destruct (index_of_from_spec (columns self) n 0) as [[Hnone Hnot]|(k & Hk & Hat & Hfirst)];
    [lia| |]; cbv zeta.
  - rewrite Hnone. simpl. exact Hnot.
  - rewrite Hk. destruct (Z.eqb_spec (0 + Z.of_nat k) (-1)) as [Habs|_]; [lia|].
    replace (Z.to_nat (0 + Z.of_nat k)) with k by lia.
    rewrite list_lookup_fmap in Hat.
    destruct (columns self !! k) as [c|] eqn:Hc; simpl in Hat; [|discriminate].
    injection Hat as Hname. split; [exact Hname|].
    exists k. split; [lia|]. now split.
Qed.

(** Indexing the schema with what [index_of] answers for a missing name
    does not fail on a non-empty schema: the sentinel [-1] is a valid
    Python index and selects the last column.  [get_column_by_name]
    answers [None] for the same name. *)
Theorem getitem_of_missing_name_is_last_column :
  forall (self : AnchorMetadata) (n : string),
    n ∉ get_column_names self ->
    get_column_by_name self n = None
    /\ AnchorMetadata_getitem self (index_of self n) =
         match last (columns self) with
         | Some c => Ok c
         | None => Err IndexError
         end.
Proof.
  intros self n Hnot.
  assert (Hidx : index_of self n = -1) by now apply index_of_first_occurrence.
  split.
  - unfold get_column_by_name. rewrite Hidx. reflexivity.
  - rewrite Hidx. unfold AnchorMetadata_getitem. cbv zeta.
    change (-1 <? 0) with true. cbv iota.
    destruct (columns self) as [|c cs] eqn:Hcs using rev_ind; [reflexivity|].
    rewrite last_snoc, length_app. simpl.
    destruct (Z.ltb_spec (-1 + Z.of_nat (length cs + 1)) 0) as [Habs|_]; [lia|].
    destruct (Z.leb_spec (Z.of_nat (length cs + 1))
                (-1 + Z.of_nat (length cs + 1))) as [Habs|_]; [lia|].
    simpl. replace (Z.to_nat (-1 + Z.of_nat (length cs + 1))) with (length cs) by lia.
    now rewrite list_lookup_middle.
Qed.

(** After [add_column], every name that resolved to a column before
    resolves to the same column (so a column added under a name already
    present is never found by name), the added name resolves to the added
    column when it was new, and no other name starts to resolve. *)
Theorem add_column_keeps_resolution :
  forall (self : AnchorMetadata) (n : string) (col_type : FieldType)
         (sz sc : option Z) (src descr : option string) (n' : string),
    get_column_by_name (snd (add_column n col_type sz sc src descr self)) n' =
      match get_column_by_name self n' with
      | Some c => Some c
      | None =>
          if String.eqb n' n
          then Some (mkColumn_Metadata n col_type (default 256 sz) (default 0 sc)
                       (default EmptyString src) (default EmptyString descr))
          else None
      end.
Proof.
  intros self n col_type sz sc src descr n'.
  unfold get_column_by_name, index_of; simpl.
  set (c := mkColumn_Metadata n col_type _ _ _ _).
  destruct (index_of_from_spec (columns self) n' 0)
    as [[Hnone Hnot]|(k & Hk & Hat & Hfirst)]; [lia| |].
  - rewrite Hnone. simpl.
    destruct (String.eqb_spec n' n) as [->|Hne].
    + assert (Hnew : index_of_from 0 (columns self ++ [c]) n
                     = 0 + Z.of_nat (length (columns self)))
        by (apply (index_of_from_app_new (columns self) c 0); [lia | exact Hnone]).
      rewrite Hnew.
      destruct (Z.eqb_spec (0 + Z.of_nat (length (columns self))) (-1)); [lia|].
      replace (Z.to_nat (0 + Z.of_nat (length (columns self))))
        with (length (columns self)) by lia.
      now rewrite list_lookup_middle.
    + rewrite index_of_from_app_absent by (assumption || (simpl; congruence)).
      reflexivity.
  - rewrite index_of_from_app_found by lia. rewrite Hk.
    destruct (Z.eqb_spec (0 + Z.of_nat k) (-1)); [lia|].
    replace (Z.to_nat (0 + Z.of_nat k)) with k by lia.
    rewrite list_lookup_fmap in Hat.
    destruct (columns self !! k) as [c0|] eqn:Hc; simpl in Hat; [|discriminate].
    erewrite lookup_app_l_Some by eassumption. reflexivity.
Qed.

End SchemaLookup.

(** * Further properties of input connections *)

Section InterfaceExtras.
Context {sdk : AlteryxPythonSDK} {pandas : Pandas} {utils : interface_utils}.

Lemma comprehension_length {A B} (f : A -> res B) (l : list A) :
  forall ys, comprehension f l = Ok ys -> length ys = length l.
Proof.
  induction l as [|x l IH]; intros ys Hc; simpl in *.
  - now injection Hc as <-.
  - destruct (f x); [|discriminate].
    destruct (comprehension f l) as [ys'|]; [|discriminate].
    injection Hc as <-. simpl. f_equal. now apply IH.
Qed.

Lemma accumulate_record_outcome (self : AyxPluginInterface) (r : RecordRef) :
  accumulate_record r self =
    match create_record_for_input_records_list self r with
    | Err e => (Err e, self)
    | Ok (row, md) =>
        (Ok tt,
         set_record_list_in (record_list_in (_interface_record_vars self) ++ [row])
           (set_column_metadata (Some md) self))
    end.
Proof.
  unfold accumulate_record, set_col_metadata. run_method.
  destruct (create_record_for_input_records_list self r) as [[row md]|e];
    reflexivity.
Qed.

Lemma accumulate_records_app (l1 l2 : list RecordRef) :
  forall self : AyxPluginInterface,
    accumulate_records (l1 ++ l2) self =
      (accumulate_records l1 ;; accumulate_records l2) self.
Proof.
  induction l1 as [|r l1 IH]; intros self; simpl.
  - reflexivity.
  - unfold bind in *.
    destruct (accumulate_record r self) as [[[]|e] s1]; [|reflexivity].
    apply IH.
Qed.

(** A record that does not decode leaves no trace: the call raises the
    decoder's exception and the connection is exactly as before (no
    partial row, schema untouched).  In a delivery, the rows decoded before
    the failing record stay in the buffer, in order, and nothing after it
    is read. *)
Theorem accumulate_records_stops_at_first_failure :
  forall (self : AyxPluginInterface) (good : list RecordRef) (bad : RecordRef)
         (rest : list RecordRef) (e : exn),
    Forall (fun r => exists row md,
              create_record_for_input_records_list self r = Ok (row, md)) good ->
    create_record_for_input_records_list self bad = Err e ->
    accumulate_record bad self = (Err e, self)
    /\ exists self' rows,
         accumulate_records (good ++ bad :: rest) self = (Err e, self')
         /\ record_list_in (_interface_record_vars self')
            = record_list_in (_interface_record_vars self) ++ rows
         /\ Forall2 (fun r row => exists md,
                       create_record_for_input_records_list self r = Ok (row, md))
              good rows.
Proof.
  intros self good bad rest e Hgood Hbad. split.
  - rewrite accumulate_record_outcome, Hbad. reflexivity.
  - destruct (accumulate_records_appends good self self eq_refl Hgood)
      as (s1 & rows & Hrun & Hbuf & Hrows).
    exists s1, rows. repeat split; try assumption.
    rewrite accumulate_records_app. unfold bind at 1. rewrite Hrun. simpl.
    unfold bind. rewrite accumulate_record_outcome.
    assert (Hri : record_info_in (_interface_record_vars s1)
                  = record_info_in (_interface_record_vars self)).
    { clear - Hrun. revert self s1 Hrun.
      induction good as [|r good IH]; intros self s1; simpl.
      - now intros [= <-].
      - unfold bind at 1. rewrite accumulate_record_outcome.
        destruct (create_record_for_input_records_list self r) as [[row md]|e'];
          [|discriminate].
        intros Hrun. now rewrite (IH _ _ Hrun). }
    rewrite (create_record_same_record_info s1 self bad Hri), Hbad.
    reflexivity.
Qed.

(** Every row [accumulate_record] buffers has one value per field of the
    connection's record info; a buffer whose rows all have that length
    keeps the property through any delivery, however it ends. *)
Theorem accumulate_records_row_arity :
  forall (records : list RecordRef) (self self' : AyxPluginInterface)
         (ri : RecordInfo) (outcome : res unit),
    record_info_in (_interface_record_vars self) = Some ri ->
    Forall (fun row => length row = length (record_info_iter ri))
      (record_list_in (_interface_record_vars self)) ->
    accumulate_records records self = (outcome, self') ->
    Forall (fun row => length row = length (record_info_iter ri))
      (record_list_in (_interface_record_vars self')).
Proof.
  induction records as [|r records IH]; intros self self' ri outcome Hri Hall; simpl.
  - now intros [= _ <-].
  - unfold bind at 1. rewrite accumulate_record_outcome.
    destruct (create_record_for_input_records_list self r) as [[row md]|e] eqn:Hdec.
    + apply IH; [exact Hri|]. simpl. apply Forall_app. split; [exact Hall|].
      constructor; [|constructor].
      unfold create_record_for_input_records_list in Hdec. rewrite Hri in Hdec.
      destruct (get_column_metadata (Some ri)); [|discriminate].
      destruct (comprehension _ (record_info_iter ri)) as [ys|] eqn:Hc;
        [|discriminate].
      injection Hdec as <- _. eapply comprehension_length; eassumption.
    + now intros [= _ <-].
Qed.

(** On a connection whose record info was never set, [accumulate_record]
    never returns normally and never buffers anything. *)
Theorem accumulate_record_without_record_info :
  forall (self : AyxPluginInterface) (r : RecordRef),
    record_info_in (_interface_record_vars self) = None ->
    exists e, accumulate_record r self = (Err e, self).
Proof.
  intros self r Hnone. rewrite accumulate_record_outcome.
  unfold create_record_for_input_records_list. rewrite Hnone.
  destruct (get_column_metadata None) as [md|e]; eexists; reflexivity.
Qed.

(** A call of [accumulate_record] that returns normally replaces the
    connection's column metadata by the metadata of its record info,
    whatever it was before (the schema is set on every row, not only on the
    first), appends one row, and leaves the record info, the completion
    and progress state, the [initialized] flag and the name as they were. *)
Theorem accumulate_record_sets_metadata_each_call :
  forall (self self' : AyxPluginInterface) (r : RecordRef),
    accumulate_record r self = (Ok tt, self') ->
    exists row md,
      get_column_metadata (record_info_in (_interface_record_vars self)) = Ok md
      /\ AyxPluginInterface_metadata self' = Some md
      /\ record_list_in (_interface_record_vars self')
         = record_list_in (_interface_record_vars self) ++ [row]
      /\ record_info_in (_interface_record_vars self')
         = record_info_in (_interface_record_vars self)
      /\ _interface_state self' = _interface_state self
      /\ self_initialized self' = self_initialized self
      /\ self_name self' = self_name self.
Proof.
  intros self self' r. rewrite accumulate_record_outcome.
  destruct (create_record_for_input_records_list self r) as [[row md]|e] eqn:Hdec;
    [|discriminate].
  intros [= <-]. exists row, md. repeat split.
  unfold create_record_for_input_records_list in Hdec.
  destruct (get_column_metadata (record_info_in (_interface_record_vars self)))
    as [md'|]; [|discriminate].
  destruct (record_info_in (_interface_record_vars self)); [|discriminate].
  destruct (comprehension _ _); [|discriminate].
  now injection Hdec as _ <-.
Qed.

(** Completion never resets: once [is_complete()] is true it stays true
    through any sequence of record-info assignments, accumulated records
    (decodable or not), metadata assignments, further [set_completed]
    calls and buffer resets. *)
Theorem is_complete_never_resets :
  forall (calls : list interface_call) (self : AyxPluginInterface),
    is_complete self = true ->
    is_complete (interface_session calls self) = true.
Proof.
  induction calls as [|c calls IH]; intros self Hdone; simpl; [exact Hdone|].
  apply IH. destruct c; simpl; try exact Hdone; try reflexivity.
  rewrite accumulate_record_outcome.
  destruct (create_record_for_input_records_list self record) as [[row md]|e];
    exact Hdone.
Qed.

Lemma forallb_map_ext {A} (f : A -> bool) (g : A -> A) (l : list A) :
  (forall x, f (g x) = f x) -> forallb f (map g l) = forallb f l.
Proof.
  intros Hfg. induction l as [|x l IH]; simpl; [reflexivity|].
  now rewrite Hfg, IH.
Qed.

Lemma all_inputs_completed_loop_cleared
    (anchors : gmap string (list AyxPluginInterface)) (names : list string) :
  forall acc : bool,
    all_inputs_completed_loop
      (fmap (M := gmap string) (map (set_record_list_in [])) anchors) names acc
    = all_inputs_completed_loop anchors names acc.
Proof.
  induction names as [|n names IH]; intros acc; simpl; [reflexivity|].
  rewrite lookup_fmap. destruct (anchors !! n) as [l|]; simpl; [|reflexivity].
  rewrite length_map, forallb_map_ext by reflexivity.
  destruct (_ || _); apply IH.
Qed.

Lemma all_required_inputs_initialized_loop_cleared
    (anchors : gmap string (list AyxPluginInterface)) (names : list string) :
  all_required_inputs_initialized_loop
    (fmap (M := gmap string) (map (set_record_list_in [])) anchors) names
  = all_required_inputs_initialized_loop anchors names.
Proof.
  induction names as [|n names IH]; simpl; [reflexivity|].
  rewrite lookup_fmap. destruct (anchors !! n) as [l|]; simpl; [|reflexivity].
  rewrite forallb_map_ext by reflexivity.
  destruct l; simpl; [reflexivity|].
  destruct (negb _); [reflexivity | apply IH].
Qed.

(** Clearing the buffers changes neither readiness query: after
    [clear_accumulated_records], [all_inputs_completed] and
    [all_required_inputs_initialized] answer (or raise) as before. *)
Theorem clear_accumulated_records_keeps_readiness :
  forall (self : AyxPlugin),
    all_inputs_completed (snd (clear_accumulated_records self))
    = all_inputs_completed self
    /\ all_required_inputs_initialized (snd (clear_accumulated_records self))
       = all_required_inputs_initialized self.
Proof.
  intros self. unfold all_inputs_completed, all_required_inputs_initialized; simpl.
  rewrite all_inputs_completed_loop_cleared,
    all_required_inputs_initialized_loop_cleared.
  now split.
Qed.

(** After [clear_accumulated_records], reading [data] with list input
    type on any connection of the plugin raises [IndexError] in stream
    mode and hands out the empty list in every other mode. *)
Theorem data_after_clear_accumulated_records :
  forall (self : AyxPlugin) (anchor : string)
         (connections : list AyxPluginInterface) (c : AyxPluginInterface),
    process_data_input_type self = "list" ->
    input_anchors (_state_vars (snd (clear_accumulated_records self))) !! anchor
    = Some connections ->
    c ∈ connections ->
    AyxPluginInterface_data (snd (clear_accumulated_records self)) c =
      if String.eqb (process_data_mode self) "stream"
      then Err IndexError
      else Ok (DataList []).
Proof.
  intros self anchor connections c Htype Hlookup Hin. simpl in Hlookup.
  rewrite lookup_fmap in Hlookup.
  destruct (input_anchors (_state_vars self) !! anchor) as [l|]; [|discriminate].
  injection Hlookup as <-.
  apply list_elem_of_fmap in Hin as (c0 & -> & _).
  unfold AyxPluginInterface_data; simpl. rewrite Htype. simpl.
  destruct (String.eqb (process_data_mode self) "stream"); reflexivity.
Qed.

End InterfaceExtras.

(** * Further properties of the plugin's wiring *)

Section WiringProperties.
Context {sdk : AlteryxPythonSDK} {pandas : Pandas} {utils : interface_utils}.

Lemma init_input_anchors_spec (connections : list connection) :
  forall (anchors : gmap string (list AyxPluginInterface)) (required : list string),
    snd (init_input_anchors connections anchors required)
    = required
      ++ map at_Name (filter (fun c => at_Optional c = "False") connections)
    /\ forall n : string,
         fst (init_input_anchors connections anchors required) !! n
         = if decide (n ∈ map at_Name connections) then Some [] else anchors !! n.
Proof.
  induction connections as [|c connections IH]; intros anchors required; simpl.
  - split; [now rewrite app_nil_r|]. intros n.
    destruct (decide (n ∈ [])) as [Hin|_]; [|reflexivity].
    now apply not_elem_of_nil in Hin.
  - destruct (IH (<[at_Name c := []]> anchors)
                (if String.eqb (at_Optional c) "False"
                 then required ++ [at_Name c] else required)) as [Hreq Hanch].
    split.
    + rewrite Hreq, filter_cons.
      destruct (String.eqb_spec (at_Optional c) "False") as [Heq|Hne].
      * rewrite decide_True by exact Heq. simpl. now rewrite <- app_assoc.
      * rewrite decide_False by exact Hne. reflexivity.
    + intros n. rewrite Hanch.
      destruct (decide (n ∈ map at_Name connections)) as [Hin|Hnot].
      * rewrite decide_True by (apply elem_of_cons; now right). reflexivity.
      * destruct (decide (n = at_Name c)) as [->|Hne].
        -- rewrite lookup_insert_eq.
           rewrite decide_True by (apply elem_of_cons; now left). reflexivity.
        -- rewrite lookup_insert_ne by congruence.
           rewrite decide_False; [reflexivity|].
           rewrite elem_of_cons. intros [?|?]; contradiction.
Qed.

Lemma init_output_anchors_spec (connections : list connection) :
  forall (anchors : gmap string OutputAnchor) (n : string),
    init_output_anchors connections anchors !! n
    = if decide (n ∈ map at_Name connections)
      then Some OutputAnchor_init else anchors !! n.
Proof.
  induction connections as [|c connections IH]; intros anchors n; simpl.
  - destruct (decide (n ∈ [])) as [Hin|_]; [|reflexivity].
    now apply not_elem_of_nil in Hin.
  - rewrite IH.
    destruct (decide (n ∈ map at_Name connections)) as [Hin|Hnot].
    + rewrite decide_True by (apply elem_of_cons; now right). reflexivity.
    + destruct (decide (n = at_Name c)) as [->|Hne].
      * rewrite lookup_insert_eq.
        rewrite decide_True by (apply elem_of_cons; now left). reflexivity.
      * rewrite lookup_insert_ne by congruence.
        rewrite decide_False; [reflexivity|].
        rewrite elem_of_cons. intros [?|?]; contradiction.
Qed.

(** What the constructor leaves: the plugin is not initialized; exactly the
    declared input names are anchors, each with no connection; exactly the
    declared output names hold a new output anchor; the required names are
    the names of the inputs whose [@Optional] is ["False"], in declaration
    order, and each of them is an anchor.  Hence [all_inputs_completed]
    answers false, and [all_required_inputs_initialized] answers true only
    when no input is required. *)
Theorem AyxPlugin_init_wiring :
  forall (n_tool_id : Z) (engine : AlteryxEngine)
         (inputs outputs : list connection) (mode input_type : string),
    let self := AyxPlugin_init n_tool_id engine inputs outputs mode input_type in
    initialized (_state_vars self) = false
    /\ (forall n : string,
          input_anchors (_state_vars self) !! n
          = if decide (n ∈ map at_Name inputs) then Some [] else None)
    /\ (forall n : string,
          output_anchors (_state_vars self) !! n
          = if decide (n ∈ map at_Name outputs)
            then Some OutputAnchor_init else None)
    /\ required_input_names (_state_vars self)
       = map at_Name (filter (fun c => at_Optional c = "False") inputs)
    /\ required_declared self
    /\ all_inputs_completed self = Ok false
    /\ all_required_inputs_initialized self
       = Ok (match required_input_names (_state_vars self) with
             | [] => true
             | _ => false
             end).
Proof.
  intros n_tool_id engine inputs outputs mode input_type self.
  destruct (init_input_anchors_spec inputs ∅ []) as [Hreq Hanch].
  assert (Hlookup : forall n : string,
            input_anchors (_state_vars self) !! n
            = if decide (n ∈ map at_Name inputs) then Some [] else None).
  { intros n. subst self; simpl. rewrite Hanch.
    destruct (decide _); [reflexivity | apply lookup_empty]. }
  assert (Hnames : required_input_names (_state_vars self)
                   = map at_Name (filter (fun c => at_Optional c = "False") inputs))
    by (subst self; simpl; exact Hreq).
  assert (Hin : forall n, n ∈ required_input_names (_state_vars self) ->
                  input_anchors (_state_vars self) !! n = Some []).
  { intros n Hn. rewrite Hlookup. rewrite decide_True; [reflexivity|].
    rewrite Hnames in Hn. apply list_elem_of_fmap in Hn as (c & -> & Hc).
    apply list_elem_of_fmap. exists c. split; [reflexivity|].
    now apply list_elem_of_filter in Hc as [_ Hc]. }
  assert (Hout : forall n : string,
            output_anchors (_state_vars self) !! n
            = if decide (n ∈ map at_Name outputs)
              then Some OutputAnchor_init else None).
  { intros n. subst self; simpl. rewrite init_output_anchors_spec.
    destruct (decide _); [reflexivity | apply lookup_empty]. }
  assert (Hinit : initialized (_state_vars self) = false) by reflexivity.
  clearbody self.
  split; [exact Hinit|]. split; [exact Hlookup|]. split; [exact Hout|].
  split; [exact Hnames|]. split; [|split].
  - unfold required_declared. apply Forall_forall. intros n Hn.
    rewrite (Hin n Hn). now eexists.
  - unfold all_inputs_completed. now rewrite Hinit.
  - unfold all_required_inputs_initialized.
    destruct (required_input_names (_state_vars self)) as [|n names] eqn:Hr;
      [reflexivity|].
    simpl. rewrite (Hin n) by (apply elem_of_cons; now left).
    reflexivity.
Qed.

(** [save_interface] keeps the wiring invariant.  On a declared anchor it
    returns normally and appends the connection after those already
    attached; on an undeclared name it raises [KeyError] and attaches
    nothing.  Other anchors, the required names, the [initialized] flag and
    the output anchors are untouched either way. *)
Theorem save_interface_appends_and_keeps_wiring :
  forall (self : AyxPlugin) (anchor : string) (interface : AyxPluginInterface),
    required_declared self ->
    let result := save_interface anchor interface self in
    required_declared (snd result)
    /\ fst result
       = match input_anchors (_state_vars self) !! anchor with
         | Some _ => Ok tt
         | None => Err KeyError
         end
    /\ input_anchors (_state_vars (snd result)) !! anchor
       = (fun connections => connections ++ [interface])
           <$> input_anchors (_state_vars self) !! anchor
    /\ (forall n : string,
          n <> anchor ->
          input_anchors (_state_vars (snd result)) !! n
          = input_anchors (_state_vars self) !! n)
    /\ required_input_names (_state_vars (snd result))
       = required_input_names (_state_vars self)
    /\ initialized (_state_vars (snd result)) = initialized (_state_vars self)
    /\ output_anchors (_state_vars (snd result))
       = output_anchors (_state_vars self).
Proof.
  intros self anchor interface Hwf result. subst result.
  unfold save_interface.
  destruct (input_anchors (_state_vars self) !! anchor) as [connections|] eqn:Hl;
    simpl.
  - repeat split.
    + unfold required_declared in *; simpl.
      eapply Forall_impl; [exact Hwf|]. intros n Hn; simpl in *.
      destruct (decide (n = anchor)) as [->|Hne].
      * rewrite lookup_insert_eq. now eexists.
      * rewrite lookup_insert_ne by congruence. exact Hn.
    + now rewrite lookup_insert_eq.
    + intros n Hne. now rewrite lookup_insert_ne by congruence.
  - repeat split; [exact Hwf | now rewrite Hl].
Qed.

Lemma all_required_inputs_initialized_loop_spec
    (anchors : gmap string (list AyxPluginInterface)) (names : list string) :
  Forall (fun n => is_Some (anchors !! n)) names ->
  exists b,
    all_required_inputs_initialized_loop anchors names = Ok b
    /\ (b = true <->
        Forall (fun n => exists connections,
                  anchors !! n = Some connections
                  /\ connections <> []
                  /\ Forall (fun c => self_initialized c = true) connections)
          names).
Proof.
  induction names as [|n names IH]; intros Hwf; simpl.
  - exists true. split; [reflexivity|]. split; [constructor | reflexivity].
  - inversion Hwf as [|? ? [connections Hn] Hrest]; subst. rewrite Hn.
    destruct (match connections with [] => true | _ => false end
              || negb (forallb self_initialized connections)) eqn:Htest.
    + exists false. split; [reflexivity|]. split; [discriminate|].
      intros Hall. inversion Hall as [|? ? (l & Hl & Hne & Hinit) _]; subst.
      rewrite Hn in Hl; injection Hl as <-.
      apply forallb_true_Forall in Hinit. rewrite Hinit in Htest.
      destruct connections; [congruence | discriminate].
    + destruct (IH Hrest) as (b & Hrun & Hb).
      exists b. split; [exact Hrun|]. rewrite Hb. split.
      * intros Hall. constructor; [|exact Hall].
        exists connections. apply orb_false_iff in Htest as [Hne Hinit].
        apply negb_false_iff, forallb_true_Forall in Hinit.
        split; [exact Hn|]. split; [|exact Hinit].
        destruct connections; [discriminate | congruence].
      * intros Hall. now inversion Hall.
Qed.

(** On a plugin that keeps the wiring invariant,
    [all_required_inputs_initialized] returns normally, and returns true if
    and only if every required name has at least one connection and every
    connection of every required name has its [initialized] flag set.  The
    plugin's own [initialized] flag plays no part. *)
Theorem all_required_inputs_initialized_iff :
  forall (self : AyxPlugin),
    required_declared self ->
    exists b,
      all_required_inputs_initialized self = Ok b
      /\ (b = true <->
          Forall (fun n => exists connections,
                    input_anchors (_state_vars self) !! n = Some connections
                    /\ connections <> []
                    /\ Forall (fun c => self_initialized c = true) connections)
            (required_input_names (_state_vars self))).
Proof.
  intros self Hwf. now apply all_required_inputs_initialized_loop_spec.
Qed.

End WiringProperties.

(** * Further properties of output anchors *)

Section OutputExtras.
Context {sdk : AlteryxPythonSDK} {pandas : Pandas} {utils : interface_utils}.

Lemma push_records_loop_app (md : option AnchorMetadata) (l1 l2 : list value) :
  forall self : OutputAnchor,
    push_records_loop md (l1 ++ l2) self =
      (push_records_loop md l1 ;; push_records_loop md l2) self.
Proof.
  induction l1 as [|v l1 IH]; intros self; simpl.
  - reflexivity.
  - unfold on_handler. run_method.
    destruct (build_ayx_record_from_list v md (_record_info_out self)
                (_record_creator self)) as [[record creator]|e]; simpl;
      [|reflexivity].
    destruct (_handler self) as [h|]; simpl; [|reflexivity].
    apply IH.
Qed.

(** The push loop leaves the payload and the schema, however it ends. *)
Lemma push_records_loop_frame (md : option AnchorMetadata) (rows : list value) :
  forall (self self' : OutputAnchor) (r : res unit),
    push_records_loop md rows self = (r, self') ->
    _data self' = _data self /\ _metadata self' = _metadata self.
Proof.
  induction rows as [|row rows IH]; intros self self' r; simpl.
  - intros [= <- <-]. now split.
  - unfold on_handler. run_method.
    destruct (build_ayx_record_from_list row md (_record_info_out self)
                (_record_creator self)) as [[record creator]|e]; simpl.
    + destruct (_handler self) as [h|]; simpl.
      * intros Hrun. now apply IH in Hrun.
      * intros [= <- <-]. now split.
    + intros [= <- <-]. now split.
Qed.

Lemma get_data_list_None (self : OutputAnchor) :
  get_data_list self = Ok None -> _data self = PNone.
Proof.
  unfold get_data_list.
  destruct (_data self) as [|df|[|first rest]]; try discriminate; [reflexivity|].
  destruct (negb (is_list first)); discriminate.
Qed.

(** When the encoding of a row fails, [push_records] raises the codec's
    exception after having pushed the rows before it, in order; the rows
    after it are not encoded, and [data] is not cleared: the whole payload
    stays pending on the anchor. *)
Theorem push_records_stops_at_first_failure :
  forall (plugin : AyxPlugin) (self after_negotiation : OutputAnchor)
         (h : OutputHandler) (done rest : list value) (bad : value)
         (records : list RecordRef) (creator : option RecordCreator) (e : exn),
    get_data_list self = Ok (Some (done ++ bad :: rest)) ->
    negotiate plugin self = (Ok tt, after_negotiation) ->
    _handler after_negotiation = Some h ->
    encode_rows (_metadata self) (_record_info_out after_negotiation)
      (_record_creator self) done = Ok (records, creator) ->
    build_ayx_record_from_list bad (_metadata self)
      (_record_info_out after_negotiation) creator = Err e ->
    push_records plugin self =
      (Err e,
       {| _data := _data self;
          _metadata := _metadata self;
          _record_info_out := _record_info_out after_negotiation;
          _record_creator := creator;
          _handler := Some (pushed records h) |}).
Proof.
  intros plugin self s1 h done rest bad records creator e
    Hdata Hneg Hh Henc Hbad.
  destruct (negotiate_frame _ _ _ _ Hneg) as (Hd & Hm & Hc).
  rewrite push_records_unfold, Hdata. unfold bind at 1. rewrite Hneg.
  unfold bind at 1. rewrite push_records_loop_app. unfold bind at 1.
  rewrite <- Hm, <- Hc in Henc. rewrite <- Hm in Hbad |- *.
  rewrite (push_records_loop_encodes _ _ _ _ _ _ Hh Henc).
  simpl. unfold bind at 1. simpl. rewrite Hbad. simpl.
  now rewrite Hd.
Qed.

(** [push_records] never changes the schema, and it either consumes the
    payload or leaves it: after a normal return [data] is [None] and a
    second [push_records] does nothing at all; after an exception [data]
    is what it was. *)
Theorem push_records_consumes_or_keeps_payload :
  forall (plugin : AyxPlugin) (self self' : OutputAnchor) (outcome : res unit),
    push_records plugin self = (outcome, self') ->
    _metadata self' = _metadata self
    /\ match outcome with
       | Ok _ => _data self' = PNone /\ push_records plugin self' = (Ok tt, self')
       | Err _ => _data self' = _data self
       end.
Proof.
  intros plugin self self' outcome. rewrite push_records_unfold.
  destruct (get_data_list self) as [[rows|]|e] eqn:Hdata.
  - unfold bind at 1.
    destruct (negotiate plugin self) as [[[]|e] s1] eqn:Hneg.
    + destruct (negotiate_frame _ _ _ _ Hneg) as (Hd & Hm & _).
      unfold bind at 1.
      destruct (push_records_loop (_metadata self) rows s1) as [[[]|e] s2] eqn:Hloop;
        apply push_records_loop_frame in Hloop as [Hd' Hm'].
      * intros [= <- <-]. simpl. split; [congruence|]. split; reflexivity.
      * intros [= <- <-]. split; congruence.
    + destruct (negotiate_frame _ _ _ _ Hneg) as (Hd & Hm & _).
      intros [= <- <-]. now split.
  - intros [= <- <-]. split; [reflexivity|].
    apply get_data_list_None in Hdata. split; [exact Hdata|].
    rewrite push_records_unfold.
    unfold get_data_list. now rewrite Hdata.
  - intros [= <- <-]. now split.
Qed.

(** A negotiation that fails is never retried.  When building the record
    info raises during the first push, [push_records] raises that
    exception with nothing pushed and the payload kept, but the half-built
    record info stays on the anchor; from then on no sequence of [data]
    and [metadata] assignments and [push_records] calls ever initialises
    the handler. *)
Theorem failed_negotiation_never_retried :
  forall (plugin : AyxPlugin) (self self' : OutputAnchor) (rows : list value)
         (e : exn) (partial : RecordInfo) (outcome : res unit)
         (calls : list call),
    _record_info_out self = None ->
    get_data_list self = Ok (Some rows) ->
    build_ayx_record_info (_metadata self) (create_record_info plugin)
    = (Err e, partial) ->
    push_records plugin self = (outcome, self') ->
    outcome = Err e
    /\ self' = set__record_info_out (Some partial) self
    /\ bound (session plugin calls self') = bound self.
Proof.
  intros plugin self self' rows e partial outcome calls Hnone Hdata Hbuild.
  rewrite push_records_unfold, Hdata. unfold bind at 1.
  assert (Hneg : negotiate plugin self
                 = (Err e, set__record_info_out (Some partial) self)).
  { unfold negotiate, not_record_info_out, push_metadata, OutputAnchor_metadata.
    run_method. rewrite Hnone; simpl. rewrite Hbuild; simpl.
    rewrite Hnone. reflexivity. }
  rewrite Hneg. intros [= <- <-]. split; [reflexivity|]. split; [reflexivity|].
  destruct (session_keeps_binding plugin calls
              (set__record_info_out (Some partial) self) partial eq_refl)
    as [_ Hb].
  exact Hb.
Qed.

(** A dataframe without rows is not a null payload: on an anchor that has
    no record info yet, [push_records] still builds the record info and
    initialises the handler with it, pushes no record, and clears [data]. *)
Theorem push_records_empty_dataframe_commits :
  forall (plugin : AyxPlugin) (self : OutputAnchor) (df : DataFrame)
         (h : OutputHandler) (ri : RecordInfo),
    _data self = PFrame df ->
    dataframe_to_list df = [] ->
    _record_info_out self = None ->
    _handler self = Some h ->
    build_ayx_record_info (_metadata self) (create_record_info plugin)
    = (Ok tt, ri) ->
    push_records plugin self =
      (Ok tt,
       {| _data := PNone;
          _metadata := _metadata self;
          _record_info_out := Some ri;
          _record_creator := _record_creator self;
          _handler :=
            Some {| init_calls := init_calls h ++ [ri];
                    push_record_calls := push_record_calls h |} |}).
Proof.
  intros plugin self df h ri Hdf Hrows Hnone Hh Hbuild.
  rewrite push_records_unfold. unfold get_data_list. rewrite Hdf, Hrows.
  unfold bind at 1. rewrite (negotiate_first plugin self h ri Hnone Hh Hbuild).
  reflexivity.
Qed.

(** What [get_data_list] makes of a non-empty list is a non-empty list
    that starts with a list, and normalizing it again changes nothing.
    Only the first element decides: a list whose first element is a list is
    passed on whole, any other list becomes the single row. *)
Theorem get_data_list_normal_form :
  forall (self : OutputAnchor) (first : value) (rest : list value),
    _data self = PList (first :: rest) ->
    exists (head : list value) (tail : list value),
      get_data_list self = Ok (Some (VList head :: tail))
      /\ get_data_list (set__data (PList (VList head :: tail)) self)
         = Ok (Some (VList head :: tail))
      /\ VList head :: tail =
           (if is_list first then first :: rest else [VList (first :: rest)]).
Proof.
  intros self first rest Hdata. unfold get_data_list. rewrite Hdata. simpl.
  destruct first; simpl; eexists _, _; repeat split.
Qed.

End OutputExtras.

(** * The further properties on the small engine *)

Lemma getitem_of_missing_name_is_last_column_witness :
  @AnchorMetadata_getitem toy_sdk
    (toy_schema [("id", "Int"); ("tag", "String")])
    (@index_of toy_sdk (toy_schema [("id", "Int"); ("tag", "String")]) "ratio")
  = Ok (@mkColumn_Metadata toy_sdk "tag" "String" 256 0 "" "").
Proof.
  apply (proj2
    (@getitem_of_missing_name_is_last_column toy_sdk
       (toy_schema [("id", "Int"); ("tag", "String")]) "ratio"
       ltac:(unfold get_column_names, toy_schema; simpl;
             rewrite !not_elem_of_cons; repeat split;
             try discriminate; apply not_elem_of_nil))).
Defined.

Lemma accumulate_records_stops_at_first_failure_witness :
  exists self',
    @accumulate_records toy_sdk toy_pandas toy_utils
      ([[VInt 1; VStr "x"]] ++ [VInt 2] :: [[VInt 3; VStr "z"]])
      (toy_connection [] false)
    = (Err (Raised "FieldExtractionError"), self')
    /\ length (record_list_in (_interface_record_vars self')) = 1%nat.
Proof.
  destruct (@accumulate_records_stops_at_first_failure toy_sdk toy_pandas toy_utils
              (toy_connection [] false) [[VInt 1; VStr "x"]] [VInt 2]
              [[VInt 3; VStr "z"]] (Raised "FieldExtractionError"))
    as (_ & self' & rows & Hrun & Hbuf & Hrows).
  - repeat constructor; do 2 eexists; reflexivity.
  - reflexivity.
  - exists self'. split; [exact Hrun|]. rewrite Hbuf. simpl.
    symmetry. exact (Forall2_length _ _ _ Hrows).
Defined.

Lemma accumulate_records_row_arity_witness :
  Forall (fun row : list value => length row = 2%nat)
    (record_list_in
       (_interface_record_vars
          (snd (@accumulate_records toy_sdk toy_pandas toy_utils
                  [[VInt 1; VStr "x"]; [VInt 2; VStr "y"; VNone]; [VInt 3]]
                  (toy_connection [] false))))).
Proof.
  apply (@accumulate_records_row_arity toy_sdk toy_pandas toy_utils
           [[VInt 1; VStr "x"]; [VInt 2; VStr "y"; VNone]; [VInt 3]]
           (toy_connection [] false) _ [("id", "Int"); ("tag", "String")]
           (Err (Raised "FieldExtractionError"))).
  - reflexivity.
  - constructor.
  - reflexivity.
Defined.

Lemma accumulate_record_without_record_info_witness :
  exists e,
    @accumulate_record toy_sdk toy_pandas toy_utils [VInt 1]
      (@AyxPluginInterface_init toy_sdk "in")
    = (Err e, @AyxPluginInterface_init toy_sdk "in").
Proof.
  apply (@accumulate_record_without_record_info toy_sdk toy_pandas toy_utils
           (@AyxPluginInterface_init toy_sdk "in") [VInt 1]).
  reflexivity.
Defined.

Lemma accumulate_record_sets_metadata_each_call_witness :
  @AyxPluginInterface_metadata toy_sdk
    (snd (@accumulate_record toy_sdk toy_pandas toy_utils [VInt 1; VStr "x"]
            (toy_connection [] false)))
  = Some (toy_schema [("id", "Int"); ("tag", "String")]).
Proof.
  destruct (@accumulate_record_sets_metadata_each_call toy_sdk toy_pandas toy_utils
              (toy_connection [] false)
              (snd (@accumulate_record toy_sdk toy_pandas toy_utils
                      [VInt 1; VStr "x"] (toy_connection [] false)))
              [VInt 1; VStr "x"] eq_refl)
    as (row & md & Hmd & Hset & _).
  rewrite Hset. f_equal. simpl in Hmd. now injection Hmd as <-.
Defined.

Lemma is_complete_never_resets_witness :
  is_complete
    (@interface_session toy_sdk toy_pandas toy_utils
       [@AccumulateRecord toy_sdk [VInt 1; VStr "x"];
        @ClearRecords toy_sdk;
        @SetRecordInfoIn toy_sdk None;
        @AccumulateRecord toy_sdk [VInt 2];
        @SetCompleted toy_sdk]
       (toy_connection [] true)) = true.
Proof.
  apply (@is_complete_never_resets toy_sdk toy_pandas toy_utils).
  reflexivity.
Defined.

Lemma data_after_clear_accumulated_records_witness :
  let plugin :=
    toy_plugin true
      (<["A" := [toy_connection [[VInt 1; VStr "x"]] false]]> ∅)
      ["A"] "stream" "list" in
  AyxPluginInterface_data (snd (clear_accumulated_records plugin))
    (toy_connection [] false) = Err IndexError.
Proof.
  intros plugin.
  apply (data_after_clear_accumulated_records plugin "A"
           [toy_connection [] false] (toy_connection [] false)).
  - reflexivity.
  - reflexivity.
  - constructor.
Defined.

Lemma save_interface_appends_and_keeps_wiring_witness :
  let plugin :=
    @AyxPlugin_init toy_sdk toy_pandas 7 tt
      [mkConnection "A" "False"; mkConnection "B" "True"] [mkConnection "Out" "False"]
      "batch" "list" in
  input_anchors
    (_state_vars (snd (save_interface "A" (toy_connection [] false) plugin))) !! "A"
  = Some [toy_connection [] false]
  /\ fst (save_interface "C" (toy_connection [] false) plugin) = Err KeyError.
Proof.
  intros plugin. split.
  - destruct (save_interface_appends_and_keeps_wiring plugin "A"
                (toy_connection [] false)) as (_ & _ & Happ & _).
    + repeat constructor; eexists; reflexivity.
    + rewrite Happ. reflexivity.
  - destruct (save_interface_appends_and_keeps_wiring plugin "C"
                (toy_connection [] false)) as (_ & Hout & _).
    + repeat constructor; eexists; reflexivity.
    + rewrite Hout. reflexivity.
Defined.

Lemma all_required_inputs_initialized_iff_witness :
  all_required_inputs_initialized
    (toy_plugin false
       (<["A" := [toy_connection [] false]]> (<["B" := []]> ∅))
       ["A"] "batch" "list") = Ok true.
Proof.
  destruct (all_required_inputs_initialized_iff
              (toy_plugin false
                 (<["A" := [toy_connection [] false]]> (<["B" := []]> ∅))
                 ["A"] "batch" "list")) as (b & Hrun & Hiff).
  - repeat constructor; eexists; reflexivity.
  - rewrite Hrun. f_equal. apply Hiff.
    repeat constructor. eexists. split; [reflexivity|].
    split; [discriminate|]. repeat constructor.
Defined.

Lemma push_records_stops_at_first_failure_witness :
  let plugin := toy_plugin true ∅ [] "batch" "list" in
  let schema := toy_schema [("id", "Int")] in
  let rows := [VList [VInt 1]; VInt 2; VList [VInt 3]] in
  @push_records toy_sdk toy_pandas toy_utils plugin
    (toy_anchor (PList rows) (Some schema))
  = (Err TypeError,
     @mkOutputAnchor toy_sdk toy_pandas (PList rows) (Some schema)
       (Some [("id", "Int")]) (Some tt)
       (Some (@mkOutputHandler toy_sdk [[("id", "Int")]] [([VInt 1], false)]))).
Proof.
  intros plugin schema rows.
  apply (@push_records_stops_at_first_failure toy_sdk toy_pandas toy_utils plugin
           (toy_anchor (PList rows) (Some schema))
           (snd (@negotiate toy_sdk toy_pandas toy_utils plugin
                   (toy_anchor (PList rows) (Some schema))))
           (@mkOutputHandler toy_sdk [[("id", "Int")]] [])
           [VList [VInt 1]] [VList [VInt 3]] (VInt 2) [[VInt 1]] (Some tt)
           TypeError eq_refl eq_refl eq_refl eq_refl eq_refl).
Defined.

Lemma push_records_consumes_or_keeps_payload_witness :
  let plugin := toy_plugin true ∅ [] "batch" "list" in
  let self :=
    toy_anchor (PList [VList [VInt 1]; VList [VInt 2]])
      (Some (toy_schema [("id", "Int")])) in
  let after := snd (@push_records toy_sdk toy_pandas toy_utils plugin self) in
  @_data toy_sdk toy_pandas after = PNone
  /\ @push_records toy_sdk toy_pandas toy_utils plugin after = (Ok tt, after).
Proof.
  intros plugin self after.
  apply (proj2
    (@push_records_consumes_or_keeps_payload toy_sdk toy_pandas toy_utils
       plugin self after (Ok tt) eq_refl)).
Defined.

Lemma failed_negotiation_never_retried_witness :
  let plugin := toy_plugin true ∅ [] "batch" "list" in
  let self := toy_anchor (PList [VList [VInt 1]]) None in
  let calls :=
    [SetMetadata (Some (toy_schema [("id", "Int")]));
     PushRecords;
     SetData (PList [VList [VInt 2]]);
     PushRecords] in
  @bound toy_sdk toy_pandas
    (@session toy_sdk toy_pandas toy_utils plugin calls
       (snd (@push_records toy_sdk toy_pandas toy_utils plugin self)))
  = Some [].
Proof.
  intros plugin self calls.
  apply (proj2 (proj2
    (@failed_negotiation_never_retried toy_sdk toy_pandas toy_utils plugin self
       (snd (@push_records toy_sdk toy_pandas toy_utils plugin self))
       [VList [VInt 1]] AttributeError [] (Err AttributeError) calls
       eq_refl eq_refl eq_refl eq_refl))).
Defined.

Lemma push_records_empty_dataframe_commits_witness :
  let plugin := toy_plugin true ∅ [] "batch" "dataframe" in
  let schema := toy_schema [("id", "Int")] in
  @push_records toy_sdk toy_pandas toy_utils plugin
    (toy_anchor (@PFrame toy_pandas ([], ["id"])) (Some schema))
  = (Ok tt,
     @mkOutputAnchor toy_sdk toy_pandas PNone (Some schema)
       (Some [("id", "Int")]) None
       (Some (@mkOutputHandler toy_sdk ([] ++ [[("id", "Int")]]) []))).
Proof.
  intros plugin schema.
  apply (@push_records_empty_dataframe_commits toy_sdk toy_pandas toy_utils plugin
           (toy_anchor (@PFrame toy_pandas ([], ["id"])) (Some schema))
           ([], ["id"]) toy_handler [("id", "Int")]
           eq_refl eq_refl eq_refl eq_refl eq_refl).
Defined.

Lemma get_data_list_normal_form_witness :
  exists head tail,
    @get_data_list toy_sdk toy_pandas toy_utils
      (toy_anchor (PList [VTuple [VInt 1; VStr "a"]; VTuple [VInt 2; VStr "b"]]) None)
    = Ok (Some (VList head :: tail))
    /\ tail = [].
Proof.
  destruct (@get_data_list_normal_form toy_sdk toy_pandas toy_utils
              (toy_anchor (PList [VTuple [VInt 1; VStr "a"]; VTuple [VInt 2; VStr "b"]])
                 None)
              (VTuple [VInt 1; VStr "a"]) [VTuple [VInt 2; VStr "b"]] eq_refl)
    as (head & tail & Hrun & _ & Hshape).
  exists head, tail. split; [exact Hrun|]. simpl in Hshape. now injection Hshape.
Defined.

(** * Schemas built column by column, and the dataframe view *)

Section BuiltSchemas.
Context {sdk : AlteryxPythonSDK} {pandas : Pandas} {utils : interface_utils}.

Lemma getitem_in_range (self : AnchorMetadata) (k : nat) (c : Column_Metadata) :
  columns self !! k = Some c ->
  AnchorMetadata_getitem self (Z.of_nat k) = Ok c.
Proof.
  intros Hk. pose proof (lookup_lt_Some _ _ _ Hk) as Hlt.
  unfold AnchorMetadata_getitem. cbv zeta.
  destruct (Z.ltb_spec (Z.of_nat k) 0) as [Habs|_]; [lia|].
  destruct (Z.ltb_spec (Z.of_nat k) 0) as [Habs|_]; [lia|].
  destruct (Z.leb_spec (Z.of_nat (length (columns self))) (Z.of_nat k))
    as [Habs|_]; [lia|].
  simpl. now rewrite Nat2Z.id, Hk.
Qed.

Lemma add_columns_columns (specs : list (string * FieldType)) :
  forall self : AnchorMetadata,
    add_columns specs self =
      (Ok tt,
       {| columns :=
            columns self
            ++ map (fun spec => mkColumn_Metadata (fst spec) (snd spec) 256 0
                                  EmptyString EmptyString) specs |}).
Proof.
  induction specs as [|spec specs IH]; intros self; simpl.
  - unfold ret. rewrite app_nil_r. now destruct self.
  - unfold bind, add_column, modify. rewrite IH. simpl.
    now rewrite <- app_assoc.
Qed.

(** Columns come out in the order they were added: after a series of
    [add_column] calls the names are the old names followed by the added
    names in call order, [len] has grown by the number of calls, and the
    [k]-th added column is read back at position [len_before + k] with the
    default size 256, scale 0 and empty source and description. *)
Theorem add_columns_in_call_order :
  forall (specs : list (string * FieldType)) (self : AnchorMetadata),
  exists self',
    add_columns specs self = (Ok tt, self')
    /\ get_column_names self' = get_column_names self ++ map fst specs
    /\ AnchorMetadata_len self'
       = AnchorMetadata_len self + Z.of_nat (length specs)
    /\ Forall2
         (fun (k : nat) (spec : string * FieldType) =>
            AnchorMetadata_getitem self'
              (AnchorMetadata_len self + Z.of_nat k)
            = Ok (mkColumn_Metadata (fst spec) (snd spec) 256 0
                    EmptyString EmptyString))
         (seq 0 (length specs)) specs.
Proof.
  intros specs self. eexists. split; [apply add_columns_columns|].
  split; [|split].
  - unfold get_column_names; simpl. rewrite map_app, map_map. reflexivity.
  - unfold AnchorMetadata_len; simpl. rewrite length_app, length_map. lia.
  - apply Forall2_lookup. intros k.
    destruct (specs !! k) as [spec|] eqn:Hk.
    + rewrite (lookup_seq_lt _ _ _ (lookup_lt_Some _ _ _ Hk)). simpl.
      constructor. unfold AnchorMetadata_len.
      rewrite <- Nat2Z.inj_add. apply getitem_in_range. simpl.
      rewrite lookup_app_r by lia.
      replace (length (columns self) + k - length (columns self))%nat with k by lia.
      now rewrite list_lookup_fmap, Hk.
    + rewrite lookup_seq_ge by (now apply lookup_ge_None). constructor.
Qed.

(** With an input type other than ["list"], once a record has been
    accumulated the [data] property no longer fails for want of a schema:
    in stream and batch mode alike it is [pd.DataFrame] of the whole
    buffer, with the column names of the record info's metadata; without
    pandas it raises [ImportError]. *)
Theorem data_dataframe_after_accumulate :
  forall (parent : AyxPlugin) (self self' : AyxPluginInterface) (r : RecordRef),
    String.eqb (process_data_input_type parent) "list" = false ->
    accumulate_record r self = (Ok tt, self') ->
    exists md,
      get_column_metadata (record_info_in (_interface_record_vars self)) = Ok md
      /\ AyxPluginInterface_data parent self' =
           match pd with
           | None => Err ImportError
           | Some pd_DataFrame =>
               match pd_DataFrame (record_list_in (_interface_record_vars self'))
                       (get_column_names md) with
               | Ok df => Ok (DataDataFrame df)
               | Err e => Err e
               end
           end.
Proof.
  intros parent self self' r Htype. rewrite accumulate_record_outcome.
  destruct (create_record_for_input_records_list self r) as [[row md]|e] eqn:Hdec;
    [|discriminate].
  intros [= <-]. exists md. split.
  - unfold create_record_for_input_records_list in Hdec.
    destruct (get_column_metadata (record_info_in (_interface_record_vars self)))
      as [md'|]; [|discriminate].
    destruct (record_info_in (_interface_record_vars self)); [|discriminate].
    destruct (comprehension _ _); [|discriminate].
    now injection Hdec as _ <-.
  - unfold AyxPluginInterface_data. rewrite Htype, andb_false_r. reflexivity.
Qed.

End BuiltSchemas.

Lemma data_dataframe_after_accumulate_witness :
  AyxPluginInterface_data (toy_plugin true ∅ [] "stream" "dataframe")
    (snd (@accumulate_record toy_sdk toy_pandas toy_utils [VInt 2; VStr "y"]
            (toy_connection [[VInt 1; VStr "x"]] false)))
  = Ok (@DataDataFrame toy_pandas
          ([[VInt 1; VStr "x"]; [VInt 2; VStr "y"]], ["id"; "tag"])).
Proof.
  destruct (@data_dataframe_after_accumulate toy_sdk toy_pandas toy_utils
              (toy_plugin true ∅ [] "stream" "dataframe")
              (toy_connection [[VInt 1; VStr "x"]] false)
              (snd (@accumulate_record toy_sdk toy_pandas toy_utils
                      [VInt 2; VStr "y"]
                      (toy_connection [[VInt 1; VStr "x"]] false)))
              [VInt 2; VStr "y"] eq_refl eq_refl)
    as (md & Hmd & Hdata).
  rewrite Hdata. simpl in Hmd. injection Hmd as <-. reflexivity.
Defined.
